(** * Prescription intake pipeline: a shallow embedding and its properties

    The development follows the JavaScript sources of the pharmacy store.
    Each module embeds one source file:

    - [OcrProcessor]        utils/ocrProcessor.js: [processOCR] and the field
                            parser [extractPrescriptionData] (in the source
                            tree after the class of
                            backend/src/utils/apiFeatures.js);
    - [PrescriptionUpload]  src/pages/PrescriptionUpload.jsx:
                            [parsePrescriptionText], [processWithOCR];
    - [PrescriptionModel]   models/Prescription.js: the validators of the
                            schema, the [pre('save')] hook and the
                            virtual [remainingRefills];
    - [Controllers]         controllers/orderController.js ([createOrder]) and
                            controllers/prescriptionController.js
                            ([uploadPrescription], [verifyPrescription],
                            [reprocessPrescription]) (in the source tree after
                            backend/src/controllers/productController.js).

    Text is modelled by [string]: a sequence of code units below 256, read
    as Latin-1.  Numbers that the code only adds, compares and stores are
    integers ([Z]); prices are exact rationals.  Calls that leave the
    program (the OCR engine, the mailer, the clock) are parameters, and the
    calls made are recorded in the state. *)

From Stdlib Require Import ZArith QArith Qround Lia Lqa Bool Ascii String.
From stdpp Require Import gmap strings list.

Local Open Scope string_scope.
Local Open Scope list_scope.

(* ===================================================================== *)
(** ** JavaScript strings and regular expressions *)
(* ===================================================================== *)

Module JS.

(** A computation that may throw (a [TypeError], an engine failure). *)
Inductive outcome (A : Type) : Type :=
| Returned (a : A)
| Thrown (e : string).
Arguments Returned {A} a.
Arguments Thrown {A} e.

Definition bind {A B} (m : outcome A) (f : A -> outcome B) : outcome B :=
  match m with
  | Returned a => f a
  | Thrown e => Thrown e
  end.

Notation "'let*' x ':=' m 'in' k" := (bind m (fun x => k))
  (at level 10, x name, m at level 200, k at level 200, only parsing).

(** [WhiteSpace] and [LineTerminator] code units below 256: what [trim]
    strips and what [\s] matches. *)
Definition isWhiteSpace (c : ascii) : bool :=
  let n := N_of_ascii c in
  ((9 <=? n) && (n <=? 13) || (n =? 32) || (n =? 160))%N.

Definition isDigit (c : ascii) : bool :=
  let n := N_of_ascii c in ((48 <=? n) && (n <=? 57))%N.

(** [String.prototype.toLowerCase] on Latin-1 code units. *)
Definition lowerChar (c : ascii) : ascii :=
  let n := N_of_ascii c in
  if ((65 <=? n) && (n <=? 90)
      || (192 <=? n) && (n <=? 222) && negb (n =? 215))%N
  then ascii_of_N (n + 32) else c.

Fixpoint toLowerCase (s : string) : string :=
  match s with
  | EmptyString => EmptyString
  | String c s' => String (lowerChar c) (toLowerCase s')
  end.

Fixpoint trimStart (s : string) : string :=
  match s with
  | EmptyString => EmptyString
  | String c s' => if isWhiteSpace c then trimStart s' else s
  end.

Fixpoint trimEnd (s : string) : string :=
  match s with
  | EmptyString => EmptyString
  | String c s' =>
      match trimEnd s' with
      | EmptyString => if isWhiteSpace c then EmptyString else String c EmptyString
      | t => String c t
      end
  end.

Definition trim (s : string) : string := trimEnd (trimStart s).

(** Truthiness of a string: the empty string is falsy. *)
Definition truthy (s : string) : bool :=
  match s with EmptyString => false | _ => true end.

(** [s.split(sep)] for a one-character separator. *)
Fixpoint split (sep : ascii) (s : string) : list string :=
  match s with
  | EmptyString => [EmptyString]
  | String c s' =>
      if Ascii.eqb c sep then EmptyString :: split sep s'
      else match split sep s' with
           | h :: t => String c h :: t
           | [] => [String c EmptyString]
           end
  end.

(** [s.includes(k)]. *)
Fixpoint includes (s k : string) : bool :=
  String.prefix k s ||
  match s with
  | EmptyString => false
  | String _ s' => includes s' k
  end.

(** The text consumed between a position [s] and a later position [s']
    (both given as the remaining input). *)
Definition taken (s s' : string) : string :=
  String.substring 0 (String.length s - String.length s') s.

(** *** Backtracking regular expressions

    The fragment the sources use: character classes, sequence, ordered
    alternation, greedy [?], greedy [*] and [+] on a character class,
    capturing groups and [^]. *)
Inductive regex : Type :=
| Eps
| Chr (p : ascii -> bool)
| Seq (a b : regex)
| Alt (a b : regex)
| Opt (a : regex)
| Star (p : ascii -> bool)
| Plus (p : ascii -> bool)
| Grp (n : nat) (a : regex)
| Bol.

(** Groups that every successful match of a pattern sets. *)
Fixpoint binds (r : regex) (n : nat) : bool :=
  match r with
  | Seq a b => binds a n || binds b n
  | Alt a b => binds a n && binds b n
  | Grp m a => Nat.eqb n m || binds a n
  | _ => false
  end.

Definition captures := nat -> option string.
Definition noCaptures : captures := fun _ => None.
Definition setCapture (n : nat) (v : string) (c : captures) : captures :=
  fun m => if Nat.eqb m n then Some v else c m.

Section Matcher.
Context {R : Type}.

  (** Greedy [p*]: take the longest run first, give characters back one at
      a time when the continuation fails. *)
Fixpoint star (p : ascii -> bool) (s : string) (c : captures)
           (k : string -> captures -> option R) : option R :=
    match s with
    | String x s' =>
        if p x then
          match star p s' c k with
          | Some r => Some r
          | None => k s c
          end
        else k s c
    | EmptyString => k s c
    end.

  (** [rmatch r n0 s c k]: match [r] at the position whose remaining input
      is [s] ([n0] is the length of the whole input), then continue with
      [k]; [None] is failure and makes the caller backtrack. *)
Fixpoint rmatch (r : regex) (n0 : nat) (s : string) (c : captures)
           (k : string -> captures -> option R) : option R :=
    match r with
    | Eps => k s c
    | Chr p =>
        match s with
        | String x s' => if p x then k s' c else None
        | EmptyString => None
        end
    | Seq a b => rmatch a n0 s c (fun s' c' => rmatch b n0 s' c' k)
    | Alt a b =>
        match rmatch a n0 s c k with
        | Some r => Some r
        | None => rmatch b n0 s c k
        end
    | Opt a =>
        match rmatch a n0 s c k with
        | Some r => Some r
        | None => k s c
        end
    | Star p => star p s c k
    | Plus p =>
        match s with
        | String x s' => if p x then star p s' c k else None
        | EmptyString => None
        end
    | Grp n a => rmatch a n0 s c (fun s' c' => k s' (setCapture n (taken s s') c'))
    | Bol => if Nat.eqb (String.length s) n0 then k s c else None
    end.
End Matcher.

(** The result of [RegExp.prototype.exec]: the text before the match, the
    match, the text after it, and the captures. *)
Record MatchResult : Type := mkMatch {
  before : string;
  matched : string;
  after : string;
  group : captures
}.

Definition matchAt (r : regex) (n0 : nat) (s : string) : option (string * captures) :=
  rmatch r n0 s noCaptures (fun s' c => Some (s', c)).

(** Leftmost match: try each start position in turn; [pre] is the text
    already skipped. *)
Fixpoint execFrom (r : regex) (n0 : nat) (pre : string) (s : string)
  : option MatchResult :=
  match matchAt r n0 s with
  | Some (s', c) =>
      Some (mkMatch pre (taken s s') s' c)
  | None =>
      match s with
      | String x s' => execFrom r n0 (pre +:+ String x EmptyString) s'
      | EmptyString => None
      end
  end.

(** [s.match(r)] for a regex without the [g] flag. *)
Definition exec (r : regex) (s : string) : option MatchResult :=
  execFrom r (String.length s) EmptyString s.

(** [s.replace(r, '')] for a regex without the [g] flag. *)
Definition replaceEmpty (r : regex) (s : string) : string :=
  match exec r s with
  | Some m => before m +:+ after m
  | None => s
  end.

(** [s.split(r)] (ECMAScript's SplitMatcher loop): [piece] is the text
    since the last separator. *)
Fixpoint splitFrom (r : regex) (n0 : nat) (fuel : nat) (piece : string) (s : string)
  : list string :=
  match fuel with
  | O => [piece +:+ s]
  | S fuel' =>
      match s with
      | EmptyString => [piece]
      | String x s' =>
          match matchAt r n0 s with
          | Some (rest, _) =>
              if Nat.eqb (String.length rest) (String.length s)
                 && negb (truthy piece)
              then splitFrom r n0 fuel' (piece +:+ String x EmptyString) s'
              else piece :: splitFrom r n0 fuel' EmptyString rest
          | None => splitFrom r n0 fuel' (piece +:+ String x EmptyString) s'
          end
      end
  end.

Definition splitRegex (r : regex) (s : string) : list string :=
  match s with
  | EmptyString =>
      match matchAt r 0 s with Some _ => [] | None => [s] end
  | _ => splitFrom r (String.length s) (2 * String.length s + 2) EmptyString s
  end.

(** Pattern atoms.  With the [i] flag a letter of the pattern matches
    either case of that letter. *)
Definition chr (x : ascii) : regex := Chr (Ascii.eqb x).
Definition chrI (x : ascii) : regex := Chr (fun y => Ascii.eqb (lowerChar y) x).
Definition notChr (x : ascii) : ascii -> bool := fun y => negb (Ascii.eqb y x).

Fixpoint litI (s : string) : regex :=
  match s with
  | EmptyString => Eps
  | String x EmptyString => chrI x
  | String x s' => Seq (chrI x) (litI s')
  end.

Definition startsWithWhiteSpace (s : string) : bool :=
  match s with
  | String c _ => isWhiteSpace c
  | EmptyString => false
  end.

(** [k] occurs in [s]. *)
Definition contains (s k : string) : Prop :=
  exists pre post, s = pre +:+ k +:+ post.

(** The lowercase content of [line] contains one of [keywords]. *)
Definition containsOneOf (keywords : list string) (line : string) : Prop :=
  exists keyword, In keyword keywords /\ contains (toLowerCase line) keyword.

(** Truthiness of a value that is an object or [undefined]. *)
Definition present {A : Type} (v : option A) : bool :=
  match v with Some _ => true | None => false end.

(** A capture spliced into a template literal: [undefined] prints as such. *)
Definition interpolate (v : option string) : string :=
  match v with Some s => s | None => "undefined" end.

(** A method call on a capture: throws on [undefined]. *)
Definition method (f : string -> string) (v : option string) : outcome string :=
  match v with
  | Some s => Returned (f s)
  | None => Thrown "TypeError: Cannot read properties of undefined"
  end.

End JS.

(* ===================================================================== *)
(** ** backend/src/utils/ocrProcessor.js *)
(* ===================================================================== *)

Module OcrProcessor.
Import JS.

Record Medication : Type := mkMedication {
  name : string;
  dosage : string;
  frequency : string;
  duration : string
}.

Record PrescriptionData : Type := mkPrescriptionData {
  doctorName : option string;
  patientName : option string;
  date : option string;
  diagnosis : option string;
  medications : list Medication;
  instructions : option string
}.

(** [text.split('\n').filter(line => line.trim())] *)
Definition nonBlankLines (text : string) : list string :=
  List.filter (fun line => truthy (trim line)) (split "010"%char text).

(** [/^[^:]*:?\s*/] *)
Definition labelPrefix : regex :=
  Seq Bol (Seq (Star (notChr ":"%char)) (Seq (Opt (chr ":"%char)) (Star isWhiteSpace))).

(** [/\s+/] *)
Definition whitespaceRun : regex := Plus isWhiteSpace.

(** [/(\d+(?:\.\d+)?)\s*(mg|ml|g|mcg|iu)/i] *)
Definition dosagePattern : regex :=
  Seq (Grp 1 (Seq (Plus isDigit) (Opt (Seq (chr "."%char) (Plus isDigit)))))
      (Seq (Star isWhiteSpace)
           (Grp 2 (Alt (litI "mg") (Alt (litI "ml") (Alt (litI "g")
                  (Alt (litI "mcg") (litI "iu"))))))).

(** The eight entries of [frequencyPatterns], in order.  (In the comments
    a blank separates a star from a closing parenthesis that follows it in
    the pattern.) *)
Definition frequencyPatterns : list regex :=
  [ (* /(\d+)\s*times?\s*(?:a\s* )?day/i *)
    Seq (Grp 1 (Plus isDigit)) (Seq (Star isWhiteSpace) (Seq (litI "time")
        (Seq (Opt (chrI "s"%char)) (Seq (Star isWhiteSpace)
        (Seq (Opt (Seq (chrI "a"%char) (Star isWhiteSpace))) (litI "day"))))));
    (* /(\d+)\s*times?\s*daily/i *)
    Seq (Grp 1 (Plus isDigit)) (Seq (Star isWhiteSpace) (Seq (litI "time")
        (Seq (Opt (chrI "s"%char)) (Seq (Star isWhiteSpace) (litI "daily")))));
    (* /once\s*daily/i *)
    Seq (litI "once") (Seq (Star isWhiteSpace) (litI "daily"));
    (* /twice\s*daily/i *)
    Seq (litI "twice") (Seq (Star isWhiteSpace) (litI "daily"));
    (* /thrice\s*daily/i *)
    Seq (litI "thrice") (Seq (Star isWhiteSpace) (litI "daily"));
    (* /bid/i, /tid/i, /qid/i *)
    litI "bid";
    litI "tid";
    litI "qid" ].

(** [/(?:for\s* )?(\d+)\s*(days?|weeks?|months?)/i] *)
Definition durationPattern : regex :=
  Seq (Opt (Seq (litI "for") (Star isWhiteSpace)))
      (Seq (Grp 1 (Plus isDigit))
           (Seq (Star isWhiteSpace)
                (Grp 2 (Alt (Seq (litI "day") (Opt (chrI "s"%char)))
                       (Alt (Seq (litI "week") (Opt (chrI "s"%char)))
                            (Seq (litI "month") (Opt (chrI "s"%char)))))))).

(** The body of the [for (const keyword of keywords)] test. *)
Definition mentions (keywords : list string) (line : string) : bool :=
  existsb (fun keyword => includes (toLowerCase line) keyword) keywords.

(** [line.replace(/^[^:]*:?\s*/, '').trim()] *)
Definition stripLabel (line : string) : string :=
  trim (replaceEmpty labelPrefix line).

Fixpoint extractField (lines : list string) (keywords : list string) : option string :=
  match lines with
  | [] => None
  | line :: rest =>
      if mentions keywords line then Some (stripLabel line)
      else extractField rest keywords
  end.

Definition extractDosage (line : string) : outcome string :=
  match exec dosagePattern line with
  | Some dosageMatch =>
      let* unit := method toLowerCase (group dosageMatch 2) in
      Returned (interpolate (group dosageMatch 1) +:+ unit)
  | None => Returned EmptyString
  end.

(** The chain of [if]s inside the pattern loop; [None] when none returns
    and the loop goes on to the next pattern. *)
Definition frequencyOfMatch (line : string) (m : MatchResult) : option string :=
  let lower := toLowerCase line in
  if match group m 1 with Some count => truthy count | None => false end
  then Some (interpolate (group m 1) +:+ " times daily")
  else if includes lower "once" then Some "Once daily"
  else if includes lower "twice" then Some "Twice daily"
  else if includes lower "thrice" then Some "Three times daily"
  else if includes lower "bid" then Some "Twice daily"
  else if includes lower "tid" then Some "Three times daily"
  else if includes lower "qid" then Some "Four times daily"
  else None.

Fixpoint frequencyLoop (patterns : list regex) (line : string) : string :=
  match patterns with
  | [] => EmptyString
  | pattern :: rest =>
      match exec pattern line with
      | Some m =>
          match frequencyOfMatch line m with
          | Some f => f
          | None => frequencyLoop rest line
          end
      | None => frequencyLoop rest line
      end
  end.

Definition extractFrequency (line : string) : string :=
  frequencyLoop frequencyPatterns line.

Definition extractDuration (line : string) : outcome string :=
  match exec durationPattern line with
  | Some durationMatch =>
      let* unit := method toLowerCase (group durationMatch 2) in
      Returned (interpolate (group durationMatch 1) +:+ " " +:+ unit)
  | None => Returned EmptyString
  end.

Definition medicationKeywords : list string :=
  ["tablet"; "capsule"; "syrup"; "mg"; "ml"; "dose"; "tab"; "cap"].

(** The object literal built for a medication line. *)
Definition medicationOf (line : string) : outcome Medication :=
  let parts := splitRegex whitespaceRun line in
  let name :=
    match parts with
    | p :: _ => if truthy p then p else EmptyString
    | [] => EmptyString
    end in
  let* dosage := extractDosage line in
  let frequency := extractFrequency line in
  let* duration := extractDuration line in
  Returned (mkMedication name dosage frequency duration).

(** The [for (const line of lines)] loop; [medications] is the array built
    so far. *)
Fixpoint medicationLoop (lines : list string) (medications : list Medication)
  : outcome (list Medication) :=
  match lines with
  | [] => Returned medications
  | line :: rest =>
      if mentions medicationKeywords line then
        let* medication := medicationOf line in
        if truthy (name medication)
        then medicationLoop rest (medications ++ [medication])
        else medicationLoop rest medications
      else medicationLoop rest medications
  end.

Definition extractMedications (lines : list string) : outcome (list Medication) :=
  medicationLoop lines [].

Definition extractPrescriptionData (text : string) : outcome PrescriptionData :=
  let lines := nonBlankLines text in
  let doctorName := extractField lines ["dr"; "doctor"; "physician"; "md"] in
  let patientName := extractField lines ["patient"; "name"; "mr"; "mrs"; "ms"] in
  let date := extractField lines ["date"; "dated"] in
  let diagnosis := extractField lines ["diagnosis"; "condition"; "complaint"] in
  let* medications := extractMedications lines in
  let instructions :=
    extractField lines ["instructions"; "directions"; "advice"; "note"] in
  Returned (mkPrescriptionData doctorName patientName date diagnosis
                               medications instructions).

(** The five scalar fields of the result, with the keyword list each is
    extracted with and the slot it fills. *)
Inductive Field : Type := Doctor | Patient | DateOf | Diagnosis | Instructions.

Definition fieldKeywords (f : Field) : list string :=
  match f with
  | Doctor => ["dr"; "doctor"; "physician"; "md"]
  | Patient => ["patient"; "name"; "mr"; "mrs"; "ms"]
  | DateOf => ["date"; "dated"]
  | Diagnosis => ["diagnosis"; "condition"; "complaint"]
  | Instructions => ["instructions"; "directions"; "advice"; "note"]
  end.

Definition fieldOf (f : Field) (d : PrescriptionData) : option string :=
  match f with
  | Doctor => doctorName d
  | Patient => patientName d
  | DateOf => date d
  | Diagnosis => diagnosis d
  | Instructions => instructions d
  end.

(** What [processOCR] resolves to. *)
Record OcrResult : Type := mkOcrResult {
  text : string;
  confidence : Z
}.

Section Tesseract.
  (** [Tesseract.recognize(imageUrl, 'eng', ...)]: the recognised text and
      the engine's confidence, or a failure. *)
Variable recognize : string -> outcome (string * Q).

  (** [Math.round] *)
Definition round (q : Q) : Z := Qfloor (q + (1 # 2))%Q.

Definition processOCR (imageUrl : string) : outcome OcrResult :=
    match recognize imageUrl with
    | Returned (t, c) => Returned (mkOcrResult (trim t) (round c))
    | Thrown _ => Thrown "Failed to process prescription image"
    end.
End Tesseract.

End OcrProcessor.

(* ===================================================================== *)
(** ** src/pages/PrescriptionUpload.jsx *)
(* ===================================================================== *)

Module PrescriptionUpload.
Import JS.

Record FileData : Type := mkFileData {
  file : string;      (* the browser's File handle *)
  name : string;
  size : Z
}.

Record ParsedData : Type := mkParsedData {
  doctorName : string;
  patientName : string;
  date : string;
  medications : list string;
  diagnosis : string;
  instructions : string
}.

(** The [useState] cells of the component. *)
Record State : Type := mkState {
  files : list FileData;
  isProcessing : bool;
  extractedText : string;
  prescriptionData : option ParsedData;
  step : nat
}.

Inductive Toast : Type :=
| ToastError (message : string)
| ToastSuccess (message : string).

(** What a run leaves behind besides the state: the toasts shown and the
    files handed to [worker.recognize], in call order. *)
Record Effects : Type := mkEffects {
  toasts : list Toast;
  recognized : list string
}.

(** [text.split('\n').filter(line => line.trim())] *)
Definition nonBlankLines (text : string) : list string :=
  List.filter (fun line => truthy (trim line)) (split "010"%char text).

Definition mentions (keywords : list string) (line : string) : bool :=
  existsb (fun keyword => includes (toLowerCase line) keyword) keywords.

(** [line.replace(/^[^:]*:?\s*/, '').trim()] *)
Definition stripLabel (line : string) : string :=
  trim (replaceEmpty OcrProcessor.labelPrefix line).

Fixpoint extractField (lines : list string) (keywords : list string) : string :=
  match lines with
  | [] => "Not detected"
  | line :: rest =>
      if mentions keywords line then stripLabel line
      else extractField rest keywords
  end.

Definition medicationKeywords : list string :=
  ["tablet"; "capsule"; "syrup"; "mg"; "ml"; "dose"].

Fixpoint medicationLoop (lines : list string) (medications : list string)
  : list string :=
  match lines with
  | [] => medications
  | line :: rest =>
      if mentions medicationKeywords line
      then medicationLoop rest (medications ++ [trim line])
      else medicationLoop rest medications
  end.

Definition extractMedications (lines : list string) : list string :=
  let medications := medicationLoop lines [] in
  if (0 <? length medications)%nat then medications
  else ["No medications detected"].

Definition parsePrescriptionText (text : string) : ParsedData :=
  let lines := nonBlankLines text in
  {| doctorName := extractField lines ["dr"; "doctor"; "physician"];
     patientName := extractField lines ["patient"; "name"];
     date := extractField lines ["date"];
     medications := extractMedications lines;
     diagnosis := extractField lines ["diagnosis"; "condition"];
     instructions := extractField lines ["instructions"; "directions"] |}.

Definition fieldKeywords (f : OcrProcessor.Field) : list string :=
  match f with
  | OcrProcessor.Doctor => ["dr"; "doctor"; "physician"]
  | OcrProcessor.Patient => ["patient"; "name"]
  | OcrProcessor.DateOf => ["date"]
  | OcrProcessor.Diagnosis => ["diagnosis"; "condition"]
  | OcrProcessor.Instructions => ["instructions"; "directions"]
  end.

Definition fieldOf (f : OcrProcessor.Field) (d : ParsedData) : string :=
  match f with
  | OcrProcessor.Doctor => doctorName d
  | OcrProcessor.Patient => patientName d
  | OcrProcessor.DateOf => date d
  | OcrProcessor.Diagnosis => diagnosis d
  | OcrProcessor.Instructions => instructions d
  end.

(** ['\n\n'] *)
Definition blankLine : string :=
  String "010"%char (String "010"%char EmptyString).

Section OCR.
  (** The tesseract worker: the text of a file, or a failure. *)
Variable recognize : string -> outcome string.

  (** The [for (const fileData of files)] loop of [processWithOCR]:
      returns the files recognised and the accumulated text. *)
Fixpoint recognizeLoop (fs : list FileData) (allText : string) (calls : list string)
    : list string * outcome string :=
    match fs with
    | [] => (calls, Returned allText)
    | fileData :: rest =>
        match recognize (file fileData) with
        | Returned text =>
            recognizeLoop rest (allText +:+ text +:+ blankLine) (calls ++ [file fileData])
        | Thrown e => (calls ++ [file fileData], Thrown e)
        end
    end.

Definition processWithOCR (isAuthenticated : bool) (st : State) : State * Effects :=
    if (length (files st) =? 0)%nat then
      (st, mkEffects [ToastError "Please upload at least one prescription image"] [])
    else if negb isAuthenticated then
      (st, mkEffects [ToastError "Please login to upload prescriptions"] [])
    else
      match recognizeLoop (files st) EmptyString [] with
      | (calls, Returned allText) =>
          let parsedData := parsePrescriptionText allText in
          (mkState (files st) false allText (Some parsedData) 2,
           mkEffects [ToastSuccess "Prescription processed successfully!"] calls)
      | (calls, Thrown _) =>
          (mkState (files st) false EmptyString (prescriptionData st) (step st),
           mkEffects [ToastError "Failed to process prescription. Please try again."] calls)
      end.
End OCR.

End PrescriptionUpload.

(* ===================================================================== *)
(** ** The [Date] built-in (ECMA-262, Date objects) *)
(* ===================================================================== *)

Module JSDate.
Local Open Scope Z_scope.

(** A [Date] holds a time value in milliseconds since the epoch, or NaN. *)
Inductive Date : Type :=
| InvalidDate
| TimeValue (t : Z).

Definition msPerDay : Z := 86400000.
Definition Day (t : Z) : Z := t / msPerDay.
Definition TimeWithinDay (t : Z) : Z := t mod msPerDay.

Definition DaysInYear (y : Z) : Z :=
  if negb (y mod 4 =? 0) then 365
  else if negb (y mod 100 =? 0) then 366
  else if negb (y mod 400 =? 0) then 365
  else 366.

Definition DayFromYear (y : Z) : Z :=
  365 * (y - 1970) + (y - 1969) / 4 - (y - 1901) / 100 + (y - 1601) / 400.

(** The largest [y] with [DayFromYear y <= d], searched upwards from a
    year that is not after it. *)
Fixpoint yearSearch (fuel : nat) (y d : Z) : Z :=
  match fuel with
  | O => y
  | S fuel' => if DayFromYear (y + 1) <=? d then yearSearch fuel' (y + 1) d else y
  end.

Definition YearFromDay (d : Z) : Z :=
  yearSearch 1000 (1970 + Z.min (d / 366) (d / 365)) d.

Definition YearFromTime (t : Z) : Z := YearFromDay (Day t).
Definition InLeapYear (t : Z) : Z :=
  if DaysInYear (YearFromTime t) =? 366 then 1 else 0.
Definition DayWithinYear (t : Z) : Z := Day t - DayFromYear (YearFromTime t).

(** The day number, within a year, of the first day of month [m]. *)
Definition monthStart (m leap : Z) : Z :=
  match m with
  | 0 => 0
  | 1 => 31
  | 2 => 59 + leap
  | 3 => 90 + leap
  | 4 => 120 + leap
  | 5 => 151 + leap
  | 6 => 181 + leap
  | 7 => 212 + leap
  | 8 => 243 + leap
  | 9 => 273 + leap
  | 10 => 304 + leap
  | _ => 334 + leap
  end.

Definition MonthFromTime (t : Z) : Z :=
  let d := DayWithinYear t in
  let leap := InLeapYear t in
  if d <? 31 then 0
  else if d <? 59 + leap then 1
  else if d <? 90 + leap then 2
  else if d <? 120 + leap then 3
  else if d <? 151 + leap then 4
  else if d <? 181 + leap then 5
  else if d <? 212 + leap then 6
  else if d <? 243 + leap then 7
  else if d <? 273 + leap then 8
  else if d <? 304 + leap then 9
  else if d <? 334 + leap then 10
  else 11.

Definition DateFromTime (t : Z) : Z :=
  DayWithinYear t - monthStart (MonthFromTime t) (InLeapYear t) + 1.

Definition MakeDay (year month date : Z) : Z :=
  let ym := year + month / 12 in
  let mn := month mod 12 in
  let leap := if DaysInYear ym =? 366 then 1 else 0 in
  DayFromYear ym + monthStart mn leap + date - 1.

Definition MakeDate (day time : Z) : Z := day * msPerDay + time.

Definition maxTime : Z := 8640000000000000.

Definition TimeClip (t : Z) : Date :=
  if Z.abs t <=? maxTime then TimeValue t else InvalidDate.

Section LocalTime.
  (** The host's offset from UTC in milliseconds, at a UTC time value
      ([true]) or at a local one ([false]). *)
Variable LocalTZA : Z -> bool -> Z.

Definition LocalTime (t : Z) : Z := t + LocalTZA t true.
Definition UTC (t : Z) : Z := t - LocalTZA t false.

  (** [d.getFullYear()]; [None] is NaN. *)
Definition getFullYear (d : Date) : option Z :=
    match d with
    | InvalidDate => None
    | TimeValue t => Some (YearFromTime (LocalTime t))
    end.

  (** [d.setFullYear(year)]: the date [d] holds afterwards. *)
Definition setFullYear (d : Date) (year : option Z) : Date :=
    let t := match d with InvalidDate => 0 | TimeValue t => LocalTime t end in
    match year with
    | None => InvalidDate
    | Some y =>
        TimeClip (UTC (MakeDate (MakeDay y (MonthFromTime t) (DateFromTime t))
                                (TimeWithinDay t)))
    end.

  (** [x = new Date(d); x.setFullYear(x.getFullYear() + 1)] *)
Definition plusOneYear (d : Date) : Date :=
    setFullYear d (option_map (fun y => y + 1) (getFullYear d)).
End LocalTime.

(** [a >= b] on dates: comparisons with NaN are false. *)
Definition geb (a b : Date) : bool :=
  match a, b with
  | TimeValue x, TimeValue y => y <=? x
  | _, _ => false
  end.

End JSDate.

(* ===================================================================== *)
(** ** backend/src/models/Prescription.js *)
(* ===================================================================== *)

Module PrescriptionModel.
Import JS JSDate.
Local Open Scope Z_scope.

Record Medication : Type := mkMedication {
  name : string;
  dosage : string;
  frequency : string;
  duration : string;
  instructions : option string;
  quantity : Z;
  refills : Z
}.

Record Image : Type := mkImage {
  url : string;
  publicId : string;
  originalName : string;
  size : Z;
  mimeType : string
}.

Inductive Status : Type :=
| pending_upload | uploaded | processing | pending_verification
| verified | rejected | expired | fulfilled.

Definition Status_eqb (a b : Status) : bool :=
  match a, b with
  | pending_upload, pending_upload | uploaded, uploaded
  | processing, processing | pending_verification, pending_verification
  | verified, verified | rejected, rejected
  | expired, expired | fulfilled, fulfilled => true
  | _, _ => false
  end.

Inductive Priority : Type := low | normal | high | urgent.

Record VerificationStatus : Type := mkVerificationStatus {
  isVerified : bool;
  verifiedBy : option string;
  verifiedAt : option Date;
  verificationNotes : option string;
  rejectionReason : option string
}.

(** A prescription document.  The free-text fields that no modelled
    operation reads after creation (diagnosis, symptoms, allergies,
    instructions, notes, the doctor's contact details) are left out. *)
Record Prescription : Type := mkPrescription {
  _id : string;
  prescriptionNumber : option string;
  patient : string;
  doctorName : string;
  doctorLicenseNumber : string;
  medications : list Medication;
  images : list Image;
  extractedText : option string;
  ocrConfidence : option Z;
  status : Status;
  verificationStatus : VerificationStatus;
  prescriptionDate : option Date;
  expiryDate : option Date;
  isValid : bool;
  refillsUsed : Z;
  orders : list string;
  priority : Priority
}.

Definition setPrescriptionNumber (v : option string) (p : Prescription) : Prescription :=
  mkPrescription (_id p) v (patient p) (doctorName p) (doctorLicenseNumber p)
    (medications p) (images p) (extractedText p) (ocrConfidence p) (status p)
    (verificationStatus p) (prescriptionDate p) (expiryDate p) (isValid p)
    (refillsUsed p) (orders p) (priority p).

Definition setExpiryDate (v : option Date) (p : Prescription) : Prescription :=
  mkPrescription (_id p) (prescriptionNumber p) (patient p) (doctorName p)
    (doctorLicenseNumber p) (medications p) (images p) (extractedText p)
    (ocrConfidence p) (status p) (verificationStatus p) (prescriptionDate p) v
    (isValid p) (refillsUsed p) (orders p) (priority p).

Definition setStatus (v : Status) (p : Prescription) : Prescription :=
  mkPrescription (_id p) (prescriptionNumber p) (patient p) (doctorName p)
    (doctorLicenseNumber p) (medications p) (images p) (extractedText p)
    (ocrConfidence p) v (verificationStatus p) (prescriptionDate p)
    (expiryDate p) (isValid p) (refillsUsed p) (orders p) (priority p).

Definition setVerificationStatus (v : VerificationStatus) (p : Prescription) : Prescription :=
  mkPrescription (_id p) (prescriptionNumber p) (patient p) (doctorName p)
    (doctorLicenseNumber p) (medications p) (images p) (extractedText p)
    (ocrConfidence p) (status p) v (prescriptionDate p)
    (expiryDate p) (isValid p) (refillsUsed p) (orders p) (priority p).

Definition setOcr (t : string) (c : Z) (p : Prescription) : Prescription :=
  mkPrescription (_id p) (prescriptionNumber p) (patient p) (doctorName p)
    (doctorLicenseNumber p) (medications p) (images p) (Some t) (Some c)
    (status p) (verificationStatus p) (prescriptionDate p)
    (expiryDate p) (isValid p) (refillsUsed p) (orders p) (priority p).

(** The virtual [remainingRefills]:
    [Math.max(0, medications.reduce((total, med) => total + med.refills, 0) - refillsUsed)] *)
Definition remainingRefills (p : Prescription) : Z :=
  Z.max 0 (fold_left (fun total med => total + refills med) (medications p) 0
           - refillsUsed p).

(** The sum of the medications' refills. *)
Fixpoint totalRefills (meds : list Medication) : Z :=
  match meds with
  | [] => 0
  | med :: rest => refills med + totalRefills rest
  end.

Section Hooks.
Variable LocalTZA : Z -> bool -> Z.

  (** The [pre('save')] hook.  [generated] stands for the text the hook
      builds from [Date.now()] and [Math.random()]. *)
Definition preSave (generated : string) (p : Prescription) : Prescription :=
    let p1 :=
      match prescriptionNumber p with
      | Some n => if truthy n then p
                  else setPrescriptionNumber (Some ("RX" +:+ generated)) p
      | None => setPrescriptionNumber (Some ("RX" +:+ generated)) p
      end in
    match expiryDate p1, prescriptionDate p1 with
    | None, Some d => setExpiryDate (Some (plusOneYear LocalTZA d)) p1
    | _, _ => p1
    end.
End Hooks.

(** *** Schema validation

    The validators the schema declares on the paths modelled here.
    Mongoose runs them when a document is saved, before the [pre('save')]
    hooks of the schema, and a document that fails is not stored.  The
    [trim] setters have run when a value is validated.  Identifiers are
    abstract: the cast of [patient] to an ObjectId is not modelled, nor is
    the unique index on [prescriptionNumber], which the database enforces
    at insert. *)

(** A path of the document: [expiryDate], or [medications.0.name]. *)
Inductive Path : Type :=
| Top (field : string)
| Sub (array : string) (index : nat) (field : string).

(** Why a path fails: the validator, with the message the schema gives it
    ([None]: the library's own message). *)
Inductive Failure : Type :=
| Required (message : option string)
| Min (message : string)
| Max (message : string)
| CastFailed.

(** A [ValidationError]: the failing paths, here in the order of the
    schema. *)
Record ValidationError : Type := mkValidationError {
  errors : list (Path * Failure)
}.

(** [required] on a String path: a non-empty string. *)
Definition requiredText (message : option string) (v : string) : list Failure :=
  if truthy v then [] else [Required message].

Definition requiredString (message : option string) (v : option string)
  : list Failure :=
  match v with
  | Some s => requiredText message s
  | None => [Required message]
  end.

(** [required] on a Date path; an invalid date does not cast. *)
Definition requiredDate (message : string) (v : option Date) : list Failure :=
  match v with
  | Some (TimeValue _) => []
  | Some InvalidDate => [CastFailed]
  | None => [Required (Some message)]
  end.

(** [min: [bound, message]] and [max: [bound, message]]. *)
Definition atLeast (bound : Z) (message : string) (v : Z) : list Failure :=
  if v <? bound then [Min message] else [].
Definition atMost (bound : Z) (message : string) (v : Z) : list Failure :=
  if bound <? v then [Max message] else [].

Definition failuresAt (path : Path) (failures : list Failure)
  : list (Path * Failure) :=
  map (pair path) failures.

(** [medicationSchema] *)
Definition medicationFailures (i : nat) (med : Medication) : list (Path * Failure) :=
  failuresAt (Sub "medications" i "name")
    (requiredText (Some "Medication name is required") (trim (name med)))
  ++ failuresAt (Sub "medications" i "dosage")
       (requiredText (Some "Dosage is required") (trim (dosage med)))
  ++ failuresAt (Sub "medications" i "frequency")
       (requiredText (Some "Frequency is required") (trim (frequency med)))
  ++ failuresAt (Sub "medications" i "duration")
       (requiredText (Some "Duration is required") (trim (duration med)))
  ++ failuresAt (Sub "medications" i "quantity")
       (atLeast 1 "Quantity must be at least 1" (quantity med))
  ++ failuresAt (Sub "medications" i "refills")
       (atLeast 0 "Refills cannot be negative" (refills med)).

Definition imageFailures (i : nat) (image : Image) : list (Path * Failure) :=
  failuresAt (Sub "images" i "url") (requiredText None (url image)).

(** [prescriptionSchema]: the failures of a document, none when it is
    valid. *)
Definition validate (p : Prescription) : list (Path * Failure) :=
  failuresAt (Top "prescriptionNumber")
    (requiredString (Some "Prescription number is required")
       (option_map trim (prescriptionNumber p)))
  ++ failuresAt (Top "doctor.name")
       (requiredText (Some "Doctor name is required") (trim (doctorName p)))
  ++ failuresAt (Top "doctor.licenseNumber")
       (requiredText (Some "Doctor license number is required")
          (trim (doctorLicenseNumber p)))
  ++ concat (imap medicationFailures (medications p))
  ++ concat (imap imageFailures (images p))
  ++ failuresAt (Top "ocrConfidence")
       (match ocrConfidence p with
        | Some c => atLeast 0 "OCR confidence cannot be negative" c
                    ++ atMost 100 "OCR confidence cannot exceed 100" c
        | None => []
        end)
  ++ failuresAt (Top "prescriptionDate")
       (requiredDate "Prescription date is required" (prescriptionDate p))
  ++ failuresAt (Top "expiryDate")
       (requiredDate "Prescription expiry date is required" (expiryDate p))
  ++ failuresAt (Top "refillsUsed")
       (atLeast 0 "Refills used cannot be negative" (refillsUsed p)).

End PrescriptionModel.

(* ===================================================================== *)
(** ** backend/src/controllers: orderController.js, prescriptionController.js *)
(* ===================================================================== *)

Module Controllers.
Import JS JSDate.
Import PrescriptionModel.

(** Modelled from the spec: the class [AppError] (utils/appError.js is not
    among the sources).  An error carries the message and the HTTP status
    code it is constructed with, [new AppError(message, statusCode)]. *)
Record AppError : Type := mkAppError {
  message : string;
  statusCode : Z
}.

(** A product document; its [_id] is the key it is stored under.  Of the
    catalogue fields only those [createOrder] reads are kept;
    [quantity] and [reserved] are [stock.quantity] and [stock.reserved]. *)
Module Product.
Record t : Type := mk {
    name : string;
    price : Q;
    quantity : Z;
    reserved : Z;
    prescriptionRequired : bool;
    isActive : bool
  }.
Definition reserve (n : Z) (p : t) : t :=
    mk (name p) (price p) (quantity p) (reserved p + n)%Z
       (prescriptionRequired p) (isActive p).
End Product.

(** An entry of [req.body.items]. *)
Module Item.
Record t : Type := mk {
    product : string;
    quantity : Z;
    prescription : option string
  }.
End Item.

Module OrderItem.
Record t : Type := mk {
    product : string;
    name : string;
    price : Q;
    quantity : Z;
    prescription : option string;
    prescriptionRequired : bool
  }.
End OrderItem.

Module Address.
Record t : Type := mk {
    firstName : string;
    lastName : string;
    street : string;
    city : string;
    state : string;
    zipCode : string;
    phone : string;
    sameAsShipping : option bool
  }.
  (** [{ ...shippingAddress, sameAsShipping: true }] *)
Definition asBilling (a : t) : t :=
    mk (firstName a) (lastName a) (street a) (city a) (state a) (zipCode a)
       (phone a) (Some true).
End Address.

Module Pricing.
Record t : Type := mk { subtotal : Q; tax : Q; shipping : Q; total : Q }.
End Pricing.

(** Modelled from the spec: the order document (models/Order.js is not
    among the sources); it holds what [createOrder] passes to
    [Order.create]. *)
Module Order.
Record t : Type := mk {
    customer : string;
    items : list OrderItem.t;
    pricing : Pricing.t;
    shippingAddress : Address.t;
    billingAddress : Address.t;
    paymentMethod : option string;
    prescriptions : list string;
    customerNotes : option string;
    status : string
  }.
End Order.

(** Modelled from the spec: the user document (models/User.js is not among
    the sources), with the fields the controllers read. *)
Module User.
Record t : Type := mk {
    id : string;
    email : string;
    firstName : string;
    lastName : string;
    role : string;
    isActive : bool
  }.
End User.

Module Email.
Record t : Type := mk { email : string; subject : string; template : string }.
End Email.

(** The database collections, with the two traces of calls to the outside:
    the messages handed to [sendEmail] and the image URLs handed to
    [processOCR]. *)
Record World : Type := mkWorld {
  prescriptions : gmap string Prescription;
  products : gmap string Product.t;
  orders : list Order.t;
  carts : gmap string (list Item.t);
  users : list User.t;
  outbox : list Email.t;
  ocrLog : list string
}.

Definition setPrescriptions (v : gmap string Prescription) (w : World) : World :=
  mkWorld v (products w) (orders w) (carts w) (users w) (outbox w) (ocrLog w).
Definition setProducts (v : gmap string Product.t) (w : World) : World :=
  mkWorld (prescriptions w) v (orders w) (carts w) (users w) (outbox w) (ocrLog w).
Definition setOrders (v : list Order.t) (w : World) : World :=
  mkWorld (prescriptions w) (products w) v (carts w) (users w) (outbox w) (ocrLog w).
Definition setCarts (v : gmap string (list Item.t)) (w : World) : World :=
  mkWorld (prescriptions w) (products w) (orders w) v (users w) (outbox w) (ocrLog w).
Definition setOutbox (v : list Email.t) (w : World) : World :=
  mkWorld (prescriptions w) (products w) (orders w) (carts w) (users w) v (ocrLog w).
Definition setOcrLog (v : list string) (w : World) : World :=
  mkWorld (prescriptions w) (products w) (orders w) (carts w) (users w) (outbox w) v.

(** What a handler answers: [res.status(code).json(body)] or [next(err)]. *)
Inductive Reply (A : Type) : Type :=
| Json (code : Z) (body : A)
| Next (err : AppError).
Arguments Json {A} code body.
Arguments Next {A} err.

(** What a handler function does with a request: it answers, or it throws.
    The error thrown here is the validation error of a document; what
    [asyncHandler], which is not among the sources, does with the rejected
    promise is not part of the model. *)
Inductive Handled (A : Type) : Type :=
| Replied (reply : Reply A)
| Threw (error : ValidationError).
Arguments Replied {A} reply.
Arguments Threw {A} error.

(** *** orderController.js *)

Record OrderBody : Type := mkOrderBody {
  items : option (list Item.t);
  shippingAddress : option Address.t;
  billingAddress : option Address.t;
  paymentMethod : option string;
  couponCode : option string;
  customerNotes : option string;
  prescriptions_supplied : option (list Prescription)   (* [prescriptions] *)
}.

(** [p.medications.some(med => med.name.toLowerCase().includes(product.name.toLowerCase())
                              || product.name.toLowerCase().includes(med.name.toLowerCase()))] *)
Definition covers (productName : string) (p : Prescription) : bool :=
  existsb (fun med =>
             includes (toLowerCase (name med)) (toLowerCase productName)
             || includes (toLowerCase productName) (toLowerCase (name med)))
          (medications p).

(** [prescriptions?.find(p => ...)] *)
Definition validPrescription (supplied : option (list Prescription))
           (productName : string) : option Prescription :=
  match supplied with
  | Some ps => List.find (covers productName) ps
  | None => None
  end.

(** The [for (const item of items)] loop: the catalogue as the loop left
    it, and either the error passed to [next] or the subtotal and the
    order lines. *)
Fixpoint itemLoop (supplied : option (list Prescription)) (its : list Item.t)
         (subtotal : Q) (orderItems : list OrderItem.t)
         (catalogue : gmap string Product.t)
  : gmap string Product.t * (AppError + Q * list OrderItem.t) :=
  match its with
  | [] => (catalogue, inr (subtotal, orderItems))
  | item :: rest =>
      match catalogue !! Item.product item with
      | None =>
          (catalogue,
           inl (mkAppError ("Product " +:+ Item.product item +:+ " not found or inactive") 400))
      | Some product =>
          if negb (Product.isActive product) then
            (catalogue,
             inl (mkAppError ("Product " +:+ Item.product item +:+ " not found or inactive") 400))
          else if (Product.quantity product <? Item.quantity item)%Z then
            (catalogue,
             inl (mkAppError ("Insufficient stock for " +:+ Product.name product) 400))
          else if Product.prescriptionRequired product
                  && negb (present (validPrescription supplied (Product.name product)))
          then
            (catalogue,
             inl (mkAppError ("Prescription required for " +:+ Product.name product) 400))
          else
            let itemTotal := (Product.price product * inject_Z (Item.quantity item))%Q in
            let line :=
              OrderItem.mk (Item.product item) (Product.name product)
                (Product.price product) (Item.quantity item)
                (Item.prescription item) (Product.prescriptionRequired product) in
            itemLoop supplied rest (subtotal + itemTotal)%Q (orderItems ++ [line])
              (<[Item.product item := Product.reserve (Item.quantity item) product]> catalogue)
      end
  end.

Definition createOrder (user : User.t) (body : OrderBody) (w : World)
  : Reply Order.t * World :=
  match items body with
  | None | Some [] =>
      (Next (mkAppError "Order must contain at least one item" 400), w)
  | Some its =>
      match shippingAddress body with
      | None => (Next (mkAppError "Shipping address is required" 400), w)
      | Some shipTo =>
          match itemLoop (prescriptions_supplied body) its 0%Q [] (products w) with
          | (catalogue, inl err) => (Next err, setProducts catalogue w)
          | (catalogue, inr (subtotal, orderItems)) =>
              let tax := (subtotal * (8 # 100))%Q in
              let shipping := if Qle_bool 50 subtotal then 0%Q else (599 # 100)%Q in
              let total := (subtotal + tax + shipping)%Q in
              let order :=
                Order.mk (User.id user) orderItems
                  (Pricing.mk subtotal tax shipping total) shipTo
                  (match billingAddress body with
                   | Some a => a
                   | None => Address.asBilling shipTo
                   end)
                  (paymentMethod body)
                  (match prescriptions_supplied body with
                   | Some ps => map _id ps
                   | None => []
                   end)
                  (customerNotes body) "pending" in
              let mail :=
                Email.mk (User.email user) "Order Confirmation - MedCare"
                         "orderConfirmation" in
              (Json 201 order,
               setOutbox (outbox w ++ [mail])
                 (setCarts (alter (fun _ => []) (User.id user) (carts w))
                    (setOrders (orders w ++ [order])
                       (setProducts catalogue w))))
          end
      end
  end.

(** *** prescriptionController.js *)

(** An entry of [req.body.medications]. *)
Module MedicationInput.
Record t : Type := mk {
    name : string;
    dosage : string;
    frequency : string;
    duration : string;
    instructions : option string;
    quantity : Z;
    refills : option Z
  }.
End MedicationInput.

(** An entry of [req.files] (multer with the Cloudinary storage). *)
Module UploadedFile.
Record t : Type := mk {
    path : string;
    filename : string;
    originalname : string;
    size : Z;
    mimetype : string
  }.
End UploadedFile.

(** The fields of the upload body the handler tests or stores in a modelled
    field.  [prescriptionDate] is the value [new Date(...)] gives for the
    text in the body; [None] is an absent or empty field. *)
Record UploadBody : Type := mkUploadBody {
  body_doctorName : option string;
  body_doctorLicenseNumber : option string;
  body_medications : option (list MedicationInput.t);
  body_prescriptionDate : option Date
}.

Record VerifyBody : Type := mkVerifyBody {
  isApproved : bool;
  notes : option string;
  body_rejectionReason : option string
}.

(** What the run time supplies to one request: the [_id] of a document
    created, the text the save hook generates a number from, and the
    clock. *)
Record Context : Type := mkContext {
  newId : string;
  generated : string;
  now : Date
}.

Definition toMedication (med : MedicationInput.t) : Medication :=
  mkMedication (MedicationInput.name med) (MedicationInput.dosage med)
    (MedicationInput.frequency med) (MedicationInput.duration med)
    (MedicationInput.instructions med) (MedicationInput.quantity med)
    (match MedicationInput.refills med with
     | Some r => if (r =? 0)%Z then 0%Z else r
     | None => 0%Z
     end).

Definition toImage (file : UploadedFile.t) : Image :=
  mkImage (UploadedFile.path file) (UploadedFile.filename file)
    (UploadedFile.originalname file) (UploadedFile.size file)
    (UploadedFile.mimetype file).

Section Handlers.
Variable LocalTZA : Z -> bool -> Z.
Variable recognize : string -> outcome (string * Q).
  (** [sendEmail]: whether the message went out ([false]: it threw). *)
Variable deliver : Email.t -> bool.

  (** [prescription.save()] on a document that validates (one that has
      been created, or loaded from the store): run the [pre('save')] hook
      on the document and store it; the document is changed in place.
      Validation at creation is in [create] below. *)
Definition save (ctx : Context) (p : Prescription) (w : World) : Prescription * World :=
    let p' := preSave LocalTZA (generated ctx) p in
    (p', setPrescriptions (<[_id p' := p']> (prescriptions w)) w).

  (** [Prescription.create(doc)]: the document is validated first; a valid
      document is saved (hook, then insert), an invalid one is not stored
      and the call throws the validation error, the hook not having run. *)
Definition create (ctx : Context) (doc : Prescription) (w : World)
    : (ValidationError + Prescription) * World :=
    match validate doc with
    | [] => let '(p, w') := save ctx doc w in (inr p, w')
    | failures => (inl (mkValidationError failures), w)
    end.

  (** [await processOCR(url)], with the call recorded. *)
Definition callOCR (imageUrl : string) (w : World)
    : outcome OcrProcessor.OcrResult * World :=
    (OcrProcessor.processOCR recognize imageUrl, setOcrLog (ocrLog w ++ [imageUrl]) w).

  (** The OCR stage shared by upload and reprocess: the [try] block and its
      [catch]; the flag tells whether the [try] block completed. *)
Definition ocrStage (ctx : Context) (imageUrl : string) (p : Prescription) (w : World)
    : bool * Prescription * World :=
    let '(p1, w1) := save ctx (setStatus processing p) w in
    match callOCR imageUrl w1 with
    | (Returned ocrResult, w2) =>
        let '(p2, w3) :=
          save ctx (setStatus pending_verification
                      (setOcr (OcrProcessor.text ocrResult)
                              (OcrProcessor.confidence ocrResult) p1)) w2 in
        (true, p2, w3)
    | (Thrown _, w2) =>
        let '(p2, w3) := save ctx (setStatus pending_verification p1) w2 in
        (false, p2, w3)
    end.

  (** A loop of [await sendEmail(...)] inside one [try]: the first failure
      ends it. *)
Fixpoint sendAll (mails : list Email.t) (sent : list Email.t) : list Email.t :=
    match mails with
    | [] => sent
    | m :: rest => if deliver m then sendAll rest (sent ++ [m]) else sent ++ [m]
    end.

  (** The block [if (images.length > 0) { ... } else { ... }] of
      [uploadPrescription], which runs once the record has been created:
      the OCR stage on the first image, or the status change alone. *)
Definition ocrIfImages (ctx : Context) (images : list Image)
             (prescription : Prescription) (w : World) : Prescription * World :=
    match images with
    | image :: _ =>
        let '(_, p, w') := ocrStage ctx (url image) prescription w in (p, w')
    | [] => save ctx (setStatus pending_verification prescription) w
    end.

Definition uploadPrescription (ctx : Context) (user : User.t) (body : UploadBody)
             (files : list UploadedFile.t) (w : World) : Handled Prescription * World :=
    match body_doctorName body, body_doctorLicenseNumber body,
          body_medications body, body_prescriptionDate body with
    | Some doctorName, Some doctorLicenseNumber, Some medications, Some prescriptionDate =>
        if negb (truthy doctorName) || negb (truthy doctorLicenseNumber) then
          (Replied (Next (mkAppError "Missing required prescription information" 400)), w)
        else
          let images := map toImage files in
          match
            create ctx
              (mkPrescription (newId ctx) None (User.id user) doctorName
                 doctorLicenseNumber (map toMedication medications) images
                 None None uploaded
                 (mkVerificationStatus false None None None None)
                 (Some prescriptionDate)
                 (Some (plusOneYear LocalTZA prescriptionDate))
                 true 0%Z [] normal) w
          with
          | (inl error, w1) => (Threw error, w1)
          | (inr prescription, w1) =>
              let '(prescription', w2) := ocrIfImages ctx images prescription w1 in
              let pharmacists :=
                filter (fun u => String.eqb (User.role u) "pharmacist"
                                 && User.isActive u = true)
                       (users w2) in
              let mails :=
                map (fun pharmacist =>
                       Email.mk (User.email pharmacist)
                         "New Prescription for Verification - MedCare" "newPrescription")
                    pharmacists in
              (Replied (Json 201 prescription'),
               setOutbox (sendAll mails (outbox w2)) w2)
          end
    | _, _, _, _ =>
        (Replied (Next (mkAppError "Missing required prescription information" 400)), w)
    end.

Definition verifyPrescription (ctx : Context) (user : User.t) (id : string)
             (body : VerifyBody) (w : World) : Reply Prescription * World :=
    match prescriptions w !! id with
    | None => (Next (mkAppError "Prescription not found" 404), w)
    | Some prescription =>
        if Status_eqb (status prescription) verified then
          (Next (mkAppError "Prescription is already verified" 400), w)
        else
          let '(prescription', w1) :=
            save ctx
              (setStatus (if isApproved body then verified else rejected)
                 (setVerificationStatus
                    (mkVerificationStatus (isApproved body) (Some (User.id user))
                       (Some (now ctx)) (notes body)
                       (if isApproved body then None else body_rejectionReason body))
                    prescription)) w in
          let w2 :=
            match List.find (fun u => String.eqb (User.id u) (patient prescription'))
                            (users w1) with
            | Some patient =>
                setOutbox
                  (outbox w1 ++
                   [Email.mk (User.email patient)
                      (if isApproved body then "Prescription Approved - MedCare"
                       else "Prescription Requires Attention - MedCare")
                      (if isApproved body then "prescriptionApproved"
                       else "prescriptionRejected")]) w1
            | None => w1
            end in
          (Json 200 prescription', w2)
    end.

Definition reprocessPrescription (ctx : Context) (id : string) (w : World)
    : Reply Prescription * World :=
    match prescriptions w !! id with
    | None => (Next (mkAppError "Prescription not found" 404), w)
    | Some prescription =>
        match images prescription with
        | [] => (Next (mkAppError "No images available for processing" 400), w)
        | image :: _ =>
            match ocrStage ctx (url image) prescription w with
            | (true, p, w') => (Json 200 p, w')
            | (false, _, w') =>
                (Next (mkAppError "Failed to reprocess prescription" 500), w')
            end
        end
    end.
End Handlers.

(** The gate as the specification words it: some supplied prescription
    has a medication whose name contains the product name, or is contained
    in it, case-insensitively. *)
Definition Covered (supplied : option (list Prescription)) (productName : string) : Prop :=
  exists ps p med,
    supplied = Some ps /\ In p ps /\ In med (medications p)
    /\ (contains (toLowerCase (name med)) (toLowerCase productName)
        \/ contains (toLowerCase productName) (toLowerCase (name med))).

(** Two catalogues that differ in reserved stock only. *)
Definition sameListing (a b : gmap string Product.t) : Prop :=
  forall id,
    (fun p => (Product.name p, Product.prescriptionRequired p)) <$> (a !! id)
    = (fun p => (Product.name p, Product.prescriptionRequired p)) <$> (b !! id).

(** *** Sample data *)

Module Sample.
Definition utc : Z -> bool -> Z := fun _ _ => 0%Z.
Definition engine : string -> outcome (string * Q) :=
    fun _ => Returned ("Amoxicillin 250mg tablet twice daily for 7 days", (876 # 10)%Q).
Definition mailer : Email.t -> bool := fun _ => true.

Definition pharmacist : User.t :=
    User.mk "u-pharm" "pharm@medcare.test" "Pat" "Harm" "pharmacist" true.
Definition patientUser : User.t :=
    User.mk "u-1" "ann@medcare.test" "Ann" "Lee" "customer" true.

Definition ctx : Context := mkContext "rx-2" "1700000000000AB12" (TimeValue 1700000000000).

Definition medicationNamed (n : string) : Medication :=
    mkMedication n "250mg" "Twice daily" "7 days" None 14 0.

  (** A record a pharmacist has approved (dates: 2024-02-29 and one year on). *)
Definition approved : Prescription :=
    mkPrescription "rx-1" (Some "RX1") "u-1" "Dr. Smith" "LIC-12345"
      [medicationNamed "Amoxicillin"]
      [mkImage "https://img/1.png" "p1" "1.png" 1000 "image/png";
       mkImage "https://img/2.png" "p2" "2.png" 1000 "image/png"]
      None None verified
      (mkVerificationStatus true (Some "u-pharm") (Some (TimeValue 1709300000000)) None None)
      (Some (TimeValue 1709210096789)) (Some (TimeValue 1740832496789))
      true 0 [] normal.

Definition otherRx : Prescription :=
    mkPrescription "rx-9" (Some "RX9") "u-1" "Dr. Smith" "LIC-12345"
      [medicationNamed "Ibuprofen"] [] None None verified
      (mkVerificationStatus true (Some "u-pharm") (Some (TimeValue 1709300000000)) None None)
      (Some (TimeValue 1709210096789)) (Some (TimeValue 1740832496789))
      true 0 [] normal.

Definition amoxicillin : Product.t :=
    Product.mk "Amoxicillin 250mg" (1299 # 100) 50 0 true true.
Definition vitaminC : Product.t :=
    Product.mk "Vitamin C 500mg" (599 # 100) 80 0 false true.

Definition world : World :=
    mkWorld {[ "rx-1" := approved ]}
            (<[ "p-amox" := amoxicillin ]> {[ "p-vitc" := vitaminC ]})
            [] ∅ [pharmacist; patientUser] [] [].

Definition home : Address.t :=
    Address.mk "Ann" "Lee" "1 Main Street" "Springfield" "IL" "62701" "5550100" None.

  (** A cart of vitamin C and amoxicillin, with the prescriptions supplied. *)
Definition order (supplied : option (list Prescription)) : OrderBody :=
    mkOrderBody (Some [Item.mk "p-vitc" 2 None; Item.mk "p-amox" 1 (Some "rx-1")])
                (Some home) None (Some "card") None None supplied.

Definition twoImages : list UploadedFile.t :=
    [UploadedFile.mk "https://img/a.png" "a" "a.png" 1000 "image/png";
     UploadedFile.mk "https://img/b.png" "b" "b.png" 1000 "image/png"].

Definition upload : UploadBody :=
    mkUploadBody (Some "Dr. Smith") (Some "LIC-12345")
      (Some [MedicationInput.mk "Amoxicillin" "250mg" "Twice daily" "7 days" None 14 None])
      (Some (TimeValue 1709210096789)).

Definition page : PrescriptionUpload.State :=
    PrescriptionUpload.mkState
      [PrescriptionUpload.mkFileData "blob:a" "a.png" 1000;
       PrescriptionUpload.mkFileData "blob:b" "b.png" 1000]
      false EmptyString None 1.
End Sample.

End Controllers.

(* ===================================================================== *)
(** ** middleware/auth.js, middleware/validation.js and the routers *)
(* ===================================================================== *)

Module Access.
Import JS JSDate PrescriptionModel Controllers.

(** [authorize(...roles)]: the error passed to [next], if any. *)
Definition authorize (roles : list string) (user : User.t) : option AppError :=
  if existsb (String.eqb (User.role user)) roles then None
  else Some (mkAppError ("User role " +:+ User.role user
                         +:+ " is not authorized to access this route") 403).

Definition isHexDigit (c : ascii) : bool :=
  let n := N_of_ascii c in
  ((48 <=? n) && (n <=? 57) || (65 <=? n) && (n <=? 70)
   || (97 <=? n) && (n <=? 102))%N.

(** [isHexadecimal] of the validator library,
    [/^(0x|0h)?[0-9A-F]+$/i]: hexadecimal digits, at least one, after an
    optional prefix. *)
Definition isHexadecimal (s : string) : bool :=
  let digits (t : string) :=
    negb (Nat.eqb (String.length t) 0) && forallb isHexDigit (list_ascii_of_string t) in
  match s with
  | String "0"%char (String c rest) =>
      (Ascii.eqb c "x"%char || Ascii.eqb c "X"%char
       || Ascii.eqb c "h"%char || Ascii.eqb c "H"%char) && digits rest
      || digits s
  | _ => digits s
  end.

(** [isMongoId] of the validator library: [isHexadecimal(str)] and
    [str.length === 24]. *)
Definition isMongoId (s : string) : bool :=
  isHexadecimal s && Nat.eqb (String.length s) 24.

(** [validateObjectId()] followed by [handleValidationErrors]. *)
Definition validateObjectId (id : string) : option AppError :=
  if isMongoId id then None else Some (mkAppError "Validation failed" 400).

Section Routes.
Variable LocalTZA : Z -> bool -> Z.
Variable recognize : string -> outcome (string * Q).

(** [router.patch('/:id/verify', validateObjectId(),
                  authorize('pharmacist', 'admin'), verifyPrescription)],
    for a request that has passed [protect]. *)
Definition verifyRoute (ctx : Context) (user : User.t) (id : string)
           (body : VerifyBody) (w : World) : Reply Prescription * World :=
  match validateObjectId id with
  | Some err => (Next err, w)
  | None =>
      match authorize ["pharmacist"; "admin"] user with
      | Some err => (Next err, w)
      | None => verifyPrescription LocalTZA ctx user id body w
      end
  end.

(** [router.post('/:id/reprocess', validateObjectId(),
                 authorize('pharmacist', 'admin'), reprocessPrescription)] *)
Definition reprocessRoute (ctx : Context) (user : User.t) (id : string) (w : World)
  : Reply Prescription * World :=
  match validateObjectId id with
  | Some err => (Next err, w)
  | None =>
      match authorize ["pharmacist"; "admin"] user with
      | Some err => (Next err, w)
      | None => reprocessPrescription LocalTZA recognize ctx id w
      end
  end.
End Routes.

(** [deletePrescription] of prescriptionController.js. *)
Definition deletePrescription (user : User.t) (id : string) (w : World)
  : Reply string * World :=
  match prescriptions w !! id with
  | None => (Next (mkAppError "Prescription not found" 404), w)
  | Some prescription =>
      if negb (String.eqb (patient prescription) (User.id user)) then
        (Next (mkAppError "Not authorized to delete this prescription" 403), w)
      else if (0 <? length (PrescriptionModel.orders prescription))%nat then
        (Next (mkAppError "Cannot delete prescription with associated orders" 400), w)
      else
        (Json 200 "Prescription deleted successfully",
         setPrescriptions (delete (_id prescription) (prescriptions w)) w)
  end.

(** The virtual [isExpired] of the model: [new Date() > this.expiryDate];
    a comparison with a missing or invalid date is false. *)
Definition isExpired (now : Date) (p : Prescription) : bool :=
  match now, expiryDate p with
  | TimeValue n, Some (TimeValue e) => (e <? n)%Z
  | _, _ => false
  end.

(** A store in which every record is kept under its own [_id]. *)
Definition keyedById (w : World) : Prop :=
  forall id p, prescriptions w !! id = Some p -> _id p = id.

(** Sample data with identifiers the routers accept. *)
Module Sample.
Definition rxId : string := "64f1a2b3c4d5e6f708192a3b".
Definition pending : Prescription :=
  mkPrescription rxId (Some "RX1") "u-1" "Dr. Smith" "LIC-12345"
    [Controllers.Sample.medicationNamed "Amoxicillin"]
    [mkImage "https://img/1.png" "p1" "1.png" 1000 "image/png"]
    None None pending_verification
    (mkVerificationStatus false None None None None)
    (Some (TimeValue 1709210096789)) (Some (TimeValue 1740832496789))
    true 0%Z [] normal.
Definition world : World :=
  mkWorld {[ rxId := pending ]} ∅ [] ∅
          [Controllers.Sample.pharmacist; Controllers.Sample.patientUser] [] [].
End Sample.

End Access.

(* ===================================================================== *)
(** ** orderController.js: cancelling and confirming an order *)
(* ===================================================================== *)

Module OrderLifecycle.
Import JS JSDate PrescriptionModel Controllers.
Local Open Scope Z_scope.

(** [product.stock.reserved = Math.max(0, product.stock.reserved - n)] *)
Definition release (n : Z) (p : Product.t) : Product.t :=
  Product.mk (Product.name p) (Product.price p) (Product.quantity p)
    (Z.max 0 (Product.reserved p - n))
    (Product.prescriptionRequired p) (Product.isActive p).

(** [product.stock.quantity -= n] followed by the release of [n]. *)
Definition deduct (n : Z) (p : Product.t) : Product.t :=
  Product.mk (Product.name p) (Product.price p) (Product.quantity p - n)
    (Z.max 0 (Product.reserved p - n))
    (Product.prescriptionRequired p) (Product.isActive p).

(** The loop [for (const item of order.items)] that [cancelOrder] and the
    cases of [updateOrderStatus] run: each product found is changed by
    [change] and saved; a product that is gone is skipped. *)
Fixpoint stockLoop (change : Z -> Product.t -> Product.t)
         (lines : list OrderItem.t) (catalogue : gmap string Product.t)
  : gmap string Product.t :=
  match lines with
  | [] => catalogue
  | item :: rest =>
      match catalogue !! OrderItem.product item with
      | Some product =>
          stockLoop change rest
            (<[OrderItem.product item := change (OrderItem.quantity item) product]>
               catalogue)
      | None => stockLoop change rest catalogue
      end
  end.

(** Release reserved stock (cancellation). *)
Definition releaseStock := stockLoop release.
(** Deduct from actual stock and clear reserved stock (confirmation). *)
Definition confirmStock := stockLoop deduct.

Record StatusEntry : Type := mkStatusEntry {
  entry_status : string;
  note : string;
  updatedBy : string;
  timestamp : Date
}.

(** Modelled from the spec: the order document as the handlers use it
    (models/Order.js is not among the sources): the fields given at
    creation and the status history. *)
Record OrderDoc : Type := mkOrderDoc {
  order : Order.t;
  statusHistory : list StatusEntry
}.

Definition setOrderStatus (s : string) (o : Order.t) : Order.t :=
  Order.mk (Order.customer o) (Order.items o) (Order.pricing o)
    (Order.shippingAddress o) (Order.billingAddress o) (Order.paymentMethod o)
    (Order.prescriptions o) (Order.customerNotes o) s.

(** The orders, under their [_id], and the catalogue. *)
Record Shop : Type := mkShop {
  orderDocs : gmap string OrderDoc;
  stock : gmap string Product.t
}.

Definition cancellableStatuses : list string :=
  ["pending"; "confirmed"; "prescription_verification"].

(** [cancelOrder]; [reason] is [req.body.reason]. *)
Definition cancelOrder (now : Date) (user : User.t) (id : string)
           (reason : option string) (shop : Shop) : Reply OrderDoc * Shop :=
  match orderDocs shop !! id with
  | None => (Next (mkAppError "Order not found" 404), shop)
  | Some doc =>
      if negb (String.eqb (Order.customer (order doc)) (User.id user)) then
        (Next (mkAppError "Not authorized to cancel this order" 403), shop)
      else if negb (existsb (String.eqb (Order.status (order doc))) cancellableStatuses)
      then (Next (mkAppError "Order cannot be cancelled at this stage" 400), shop)
      else
        let stock' := releaseStock (Order.items (order doc)) (stock shop) in
        let doc' :=
          mkOrderDoc (setOrderStatus "cancelled" (order doc))
            (statusHistory doc ++
             [mkStatusEntry "cancelled"
                (match reason with
                 | Some r => if truthy r then r else "Cancelled by customer"
                 | None => "Cancelled by customer"
                 end)
                (User.id user) now]) in
        (Json 200 doc', mkShop (<[id := doc']> (orderDocs shop)) stock')
  end.

(** The units of product [id] on a list of (product, quantity) pairs. *)
Fixpoint unitsOf (id : string) (pairs : list (string * Z)) : Z :=
  match pairs with
  | [] => 0
  | (k, q) :: rest => (if String.eqb k id then q else 0) + unitsOf id rest
  end.

Definition itemPairs (its : list Item.t) : list (string * Z) :=
  map (fun it => (Item.product it, Item.quantity it)) its.
Definition linePairs (lines : list OrderItem.t) : list (string * Z) :=
  map (fun l => (OrderItem.product l, OrderItem.quantity l)) lines.

(** Every product has a non-negative reserved stock. *)
Definition reservedNonNegative (catalogue : gmap string Product.t) : Prop :=
  forall id p, catalogue !! id = Some p -> 0 <= Product.reserved p.

Module Sample.
Definition placed : OrderDoc :=
  mkOrderDoc
    (Order.mk "u-1"
       [OrderItem.mk "p-vitc" "Vitamin C 500mg" (599 # 100) 2 None false;
        OrderItem.mk "p-amox" "Amoxicillin 250mg" (1299 # 100) 1 (Some "rx-1") true]
       (Pricing.mk (2497 # 100) (19976 # 10000) (599 # 100) (329576 # 10000))
       Controllers.Sample.home (Address.asBilling Controllers.Sample.home)
       (Some "card") ["rx-1"] None "pending")
    [].
Definition shop : Shop :=
  mkShop {[ "o-1" := placed ]}
         (<[ "p-amox" := Product.reserve 1 Controllers.Sample.amoxicillin ]>
            {[ "p-vitc" := Product.reserve 2 Controllers.Sample.vitaminC ]}).
End Sample.

End OrderLifecycle.

(* ===================================================================== *)
(** ** src/context/AppContext.jsx: the reducer and the provider's actions *)
(* ===================================================================== *)

Module AppContext.
Import JS.
Local Open Scope Z_scope.

(** A cart entry: a product with a quantity.  The product fields the
    reducer copies and never reads are represented by [name] and [price]. *)
Record CartItem : Type := mkCartItem {
  id : Z;
  name : string;
  price : Q;
  quantity : Z
}.

(** What [confirmPrescription] hands to [addPrescription]. *)
Record PrescriptionEntry : Type := mkPrescriptionEntry {
  entry_id : Z;
  entry_files : list (string * Z);
  entry_extractedText : string;
  parsedData : option PrescriptionUpload.ParsedData;
  uploadDate : string;
  entry_status : string
}.

Section Reducer.
(** The user and order payloads are stored and never read. *)
Variables (UserData OrderData : Type).

Record State : Type := mkState {
  user : option UserData;
  isAuthenticated : bool;
  cart : list CartItem;
  orders : list OrderData;
  prescriptions : list PrescriptionEntry;
  loading : bool;
  error : option string
}.

Definition initialState : State := mkState None false [] [] [] false None.

Inductive Action : Type :=
| SET_LOADING (payload : bool)
| SET_ERROR (payload : option string)
| LOGIN (payload : UserData)
| LOGOUT
| ADD_TO_CART (payload : CartItem)
| REMOVE_FROM_CART (payload : Z)
| UPDATE_CART_QUANTITY (payload_id : Z) (payload_quantity : Z)
| CLEAR_CART
| ADD_PRESCRIPTION (payload : PrescriptionEntry)
| ADD_ORDER (payload : OrderData)
| UNKNOWN.

Definition setCart (c : list CartItem) (s : State) : State :=
  mkState (user s) (isAuthenticated s) c (orders s) (prescriptions s)
          (loading s) (error s).

Definition withQuantity (q : Z) (item : CartItem) : CartItem :=
  mkCartItem (id item) (name item) (price item) q.

Definition appReducer (state : State) (action : Action) : State :=
  match action with
  | SET_LOADING payload =>
      mkState (user state) (isAuthenticated state) (cart state) (orders state)
              (prescriptions state) payload (error state)
  | SET_ERROR payload =>
      mkState (user state) (isAuthenticated state) (cart state) (orders state)
              (prescriptions state) false payload
  | LOGIN payload =>
      mkState (Some payload) true (cart state) (orders state)
              (prescriptions state) false (error state)
  | LOGOUT => mkState None false [] [] [] (loading state) (error state)
  | ADD_TO_CART payload =>
      match List.find (fun item => id item =? id payload) (cart state) with
      | Some _ =>
          setCart
            (map (fun item =>
                    if id item =? id payload
                    then withQuantity (quantity item + quantity payload) item
                    else item)
                 (cart state)) state
      | None => setCart (cart state ++ [payload]) state
      end
  | REMOVE_FROM_CART payload =>
      setCart (List.filter (fun item => negb (id item =? payload)) (cart state)) state
  | UPDATE_CART_QUANTITY payload_id payload_quantity =>
      setCart
        (map (fun item =>
                if id item =? payload_id
                then withQuantity payload_quantity item
                else item)
             (cart state)) state
  | CLEAR_CART => setCart [] state
  | ADD_PRESCRIPTION payload =>
      mkState (user state) (isAuthenticated state) (cart state) (orders state)
              (prescriptions state ++ [payload]) (loading state) (error state)
  | ADD_ORDER payload =>
      mkState (user state) (isAuthenticated state) (cart state)
              (orders state ++ [payload]) (prescriptions state)
              (loading state) (error state)
  | UNKNOWN => state
  end.

(** [addToCart(product, quantity)] dispatches the product with that
    quantity. *)
Definition addToCart (product : CartItem) (q : Z) (state : State) : State :=
  appReducer state (ADD_TO_CART (withQuantity q product)).

Definition removeFromCart (productId : Z) (state : State) : State :=
  appReducer state (REMOVE_FROM_CART productId).

Definition updateCartQuantity (productId : Z) (q : Z) (state : State) : State :=
  if q <=? 0 then removeFromCart productId state
  else appReducer state (UPDATE_CART_QUANTITY productId q).

Definition addPrescription (p : PrescriptionEntry) (state : State) : State :=
  appReducer state (ADD_PRESCRIPTION p).

(** [confirmPrescription] of the upload page: the entry goes to the
    application state and the form is reset.  [now] is [Date.now()] and
    [today] is [new Date().toISOString()]. *)
Definition confirmPrescription (now : Z) (today : string)
           (page : PrescriptionUpload.State) (state : State)
  : PrescriptionUpload.State * State :=
  let prescription :=
    mkPrescriptionEntry now
      (map (fun f => (PrescriptionUpload.name f, PrescriptionUpload.size f))
           (PrescriptionUpload.files page))
      (PrescriptionUpload.extractedText page)
      (PrescriptionUpload.prescriptionData page)
      today "pending_verification" in
  (PrescriptionUpload.mkState [] (PrescriptionUpload.isProcessing page)
     EmptyString None 1,
   addPrescription prescription state).
End Reducer.

Arguments cart {UserData OrderData} s.
Arguments initialState {UserData OrderData}.
Arguments appReducer {UserData OrderData} state action.
Arguments addToCart {UserData OrderData} product q state.
Arguments removeFromCart {UserData OrderData} productId state.
Arguments updateCartQuantity {UserData OrderData} productId q state.
Arguments setCart {UserData OrderData} c s.

(** The units in a cart. *)
Definition totalUnits (c : list CartItem) : Z :=
  fold_right (fun item total => quantity item + total) 0 c.

End AppContext.

(** Two OCR workers for the upload page: one reads a different text from
    each file, the other fails on every file but the first. *)
Module PageSample.
Import JS.

Definition newline : string := String "010"%char EmptyString.

Definition reads : string -> outcome string :=
  fun f =>
    if String.eqb f "blob:a"
    then Returned ("Dr: Rao" +:+ newline +:+ "Paracetamol 500mg")
    else Returned ("Doctor: Mehta" +:+ newline +:+ "Cough syrup 5ml").

Definition crashes : string -> outcome string :=
  fun f =>
    if String.eqb f "blob:a" then Returned "Dr: Rao" else Thrown "worker crashed".

End PageSample.

(* ===================================================================== *)
(** * Properties *)
(* ===================================================================== *)

(** ** Strings *)

Section StringFacts.
Import JS.

Lemma prefix_spec (k s : string) :
  String.prefix k s = true <-> exists post, s = k +:+ post.
Proof.
  revert s; induction k as [|x k IH]; intros s.
  - split; [intros _; exists s; reflexivity | intros _; now destruct s].
  - destruct s as [|y s]; simpl.
    + split; [discriminate | intros [post H]; discriminate].
    + destruct (ascii_dec x y) as [->|Hne].
      * rewrite IH. split; intros [post H]; exists post; [now subst | now inversion H].
      * split; [discriminate | intros [post H]; inversion H; congruence].
Qed.

Lemma includes_cons (x : ascii) (s k : string) :
  includes (String x s) k = String.prefix k (String x s) || includes s k.
Proof. reflexivity. Qed.

Lemma includes_nil (k : string) :
  includes EmptyString k = String.prefix k EmptyString || false.
Proof. reflexivity. Qed.

(** [includes] decides the substring relation. *)
Lemma includes_spec (s k : string) :
  includes s k = true <-> contains s k.
Proof.
  unfold contains. induction s as [|x s IH].
  - rewrite includes_nil, orb_false_r, prefix_spec. split.
    + intros [post H]. exists EmptyString, post. exact H.
    + intros [pre [post H]]. destruct pre; simpl in H; [exists post; exact H | discriminate].
  - rewrite includes_cons, orb_true_iff, prefix_spec, IH. split.
    + intros [[post H] | [pre [post H]]].
      * exists EmptyString, post. exact H.
      * exists (String x pre), post. simpl. now rewrite H.
    + intros [pre [post H]]. destruct pre as [|y pre]; simpl in H.
      * left. exists post. exact H.
      * right. inversion H. exists pre, post. reflexivity.
Qed.

Lemma existsb_false_Forall {A} (f : A -> bool) (l : list A) :
  existsb f l = false <-> Forall (fun x => f x = false) l.
Proof.
  induction l as [|a l IH]; simpl.
  - split; [constructor | reflexivity].
  - rewrite orb_false_iff, IH. split.
    + intros [H1 H2]. now constructor.
    + intros H. inversion H; subst. now split.
Qed.

End StringFacts.

(** ** The regular-expression matcher *)

Section RegexFacts.
Import JS.

Lemma star_continues {R} p s c (k : string -> captures -> option R) res :
  star p s c k = Some res -> exists s', k s' c = Some res.
Proof.
  induction s as [|x s IH]; simpl.
  - intros H. now exists EmptyString.
  - destruct (p x).
    + destruct (star p s c k) eqn:E.
      * intros [= <-]. now apply IH.
      * intros H. now exists (String x s).
    + intros H. now exists (String x s).
Qed.

Lemma rmatch_continues {R} r n0 :
  forall s c (k : string -> captures -> option R) res,
    rmatch r n0 s c k = Some res ->
    exists s' c',
      k s' c' = Some res
      /\ (forall n, binds r n = true -> is_Some (c' n))
      /\ (forall n, is_Some (c n) -> is_Some (c' n)).
Proof.
  induction r as [|p|a IHa b IHb|a IHa b IHb|a IHa|p|p|m a IHa|];
    intros s c k res H; simpl in H.
  - exists s, c. repeat split; [exact H | discriminate | auto].
  - destruct s as [|x s]; [discriminate|]. destruct (p x); [|discriminate].
    exists s, c. repeat split; [exact H | discriminate | auto].
  - apply IHa in H as (s1 & c1 & H1 & B1 & K1).
    apply IHb in H1 as (s2 & c2 & H2 & B2 & K2).
    exists s2, c2. repeat split; [exact H2 | | auto].
    intros n Hn. simpl in Hn. apply orb_true_iff in Hn as [Hn|Hn]; auto.
  - destruct (rmatch a n0 s c k) eqn:E.
    + injection H as ->. apply IHa in E as (s1 & c1 & H1 & B1 & K1).
      exists s1, c1. repeat split; [exact H1 | | auto].
      intros n Hn. simpl in Hn. apply andb_true_iff in Hn as [Hn _]. auto.
    + apply IHb in H as (s1 & c1 & H1 & B1 & K1).
      exists s1, c1. repeat split; [exact H1 | | auto].
      intros n Hn. simpl in Hn. apply andb_true_iff in Hn as [_ Hn]. auto.
  - destruct (rmatch a n0 s c k) eqn:E.
    + injection H as ->. apply IHa in E as (s1 & c1 & H1 & B1 & K1).
      exists s1, c1. repeat split; [exact H1 | discriminate | auto].
    + exists s, c. repeat split; [exact H | discriminate | auto].
  - apply star_continues in H as [s' H]. exists s', c.
    repeat split; [exact H | discriminate | auto].
  - destruct s as [|x s]; [discriminate|]. destruct (p x); [|discriminate].
    apply star_continues in H as [s' H]. exists s', c.
    repeat split; [exact H | discriminate | auto].
  - apply IHa in H as (s1 & c1 & H1 & B1 & K1).
    exists s1, (setCapture m (taken s s1) c1). repeat split; [exact H1 | |].
    + intros n Hn. simpl in Hn. unfold setCapture.
      destruct (Nat.eqb n m) eqn:E; [eauto | auto].
    + intros n Hn. unfold setCapture. destruct (Nat.eqb n m); [eauto | auto].
  - destruct (Nat.eqb (String.length s) n0); [|discriminate].
    exists s, c. repeat split; [exact H | discriminate | auto].
Qed.

Lemma execFrom_binds r n0 : forall s pre m,
  execFrom r n0 pre s = Some m ->
  forall n, binds r n = true -> is_Some (group m n).
Proof.
  induction s as [|x s IH]; intros pre m H n Hn; simpl in H.
  - destruct (matchAt r n0 EmptyString) as [[s' c]|] eqn:E; [|discriminate].
    injection H as <-. simpl.
    apply rmatch_continues in E as (s1 & c1 & H1 & B1 & _).
    injection H1 as -> ->. auto.
  - destruct (matchAt r n0 (String x s)) as [[s' c]|] eqn:E.
    + injection H as <-. simpl.
      apply rmatch_continues in E as (s1 & c1 & H1 & B1 & _).
      injection H1 as -> ->. auto.
    + eapply IH; eauto.
Qed.

Lemma exec_binds r s m n :
  exec r s = Some m -> binds r n = true -> is_Some (group m n).
Proof. intros H. eapply execFrom_binds. exact H. Qed.

End RegexFacts.

(** ** The field parser *)

Section ParserFacts.
Import JS.

Lemma mentions_spec (keywords : list string) (line : string) :
  OcrProcessor.mentions keywords line = true <-> containsOneOf keywords line.
Proof.
  unfold OcrProcessor.mentions, containsOneOf. rewrite existsb_exists.
  split; intros [k [Hin H]]; exists k; (split; [exact Hin|]); now apply includes_spec.
Qed.

(** The first line that mentions a keyword decides a field. *)
Lemma extractField_first_match (lines keywords : list string) :
  OcrProcessor.extractField lines keywords =
  match List.find (OcrProcessor.mentions keywords) lines with
  | Some line => Some (OcrProcessor.stripLabel line)
  | None => None
  end.
Proof.
  induction lines as [|line rest IH]; simpl; [reflexivity|].
  destruct (OcrProcessor.mentions keywords line); [reflexivity | exact IH].
Qed.

Lemma page_extractField_first_match (lines keywords : list string) :
  PrescriptionUpload.extractField lines keywords =
  match List.find (PrescriptionUpload.mentions keywords) lines with
  | Some line => PrescriptionUpload.stripLabel line
  | None => "Not detected"
  end.
Proof.
  induction lines as [|line rest IH]; simpl; [reflexivity|].
  destruct (PrescriptionUpload.mentions keywords line); [reflexivity | exact IH].
Qed.

(** Neither regex-based extractor can throw: a match always sets the
    group whose method is called. *)
Lemma extractDosage_returns (line : string) :
  exists d, OcrProcessor.extractDosage line = Returned d.
Proof.
  unfold OcrProcessor.extractDosage.
  destruct (exec OcrProcessor.dosagePattern line) as [m|] eqn:E; [|eauto].
  destruct (exec_binds _ _ _ 2%nat E eq_refl) as [u Hu].
  rewrite Hu. simpl. eauto.
Qed.

Lemma extractDuration_returns (line : string) :
  exists d, OcrProcessor.extractDuration line = Returned d.
Proof.
  unfold OcrProcessor.extractDuration.
  destruct (exec OcrProcessor.durationPattern line) as [m|] eqn:E; [|eauto].
  destruct (exec_binds _ _ _ 2%nat E eq_refl) as [u Hu].
  rewrite Hu. simpl. eauto.
Qed.

Lemma medicationOf_returns (line : string) :
  exists m, OcrProcessor.medicationOf line = Returned m
    /\ OcrProcessor.name m =
       match splitRegex OcrProcessor.whitespaceRun line with
       | p :: _ => p
       | [] => EmptyString
       end.
Proof.
  unfold OcrProcessor.medicationOf.
  destruct (extractDosage_returns line) as [d ->].
  destruct (extractDuration_returns line) as [u ->]. simpl.
  eexists; split; [reflexivity|]. simpl.
  destruct (splitRegex OcrProcessor.whitespaceRun line) as [|p ps]; [reflexivity|].
  now destruct p.
Qed.

Lemma medicationLoop_returns (lines : list string) : forall acc,
  exists meds, OcrProcessor.medicationLoop lines acc = Returned meds.
Proof.
  induction lines as [|line rest IH]; intros acc;
    cbn [OcrProcessor.medicationLoop]; [eauto|].
  destruct (OcrProcessor.mentions OcrProcessor.medicationKeywords line); [|apply IH].
  destruct (medicationOf_returns line) as (m & -> & _). cbn [bind].
  destruct (truthy (OcrProcessor.name m)); apply IH.
Qed.

Lemma truthy_append_l (a b : string) : truthy a = true -> truthy (a +:+ b) = true.
Proof. now destruct a. Qed.

(** Once the current piece is non-empty, the first piece [split] returns
    is non-empty. *)
Lemma splitFrom_head r n0 : forall fuel piece s,
  truthy piece = true ->
  exists h t, splitFrom r n0 fuel piece s = h :: t /\ truthy h = true.
Proof.
  induction fuel as [|fuel IH]; intros piece s Hp; simpl.
  - eexists _, _; split; [reflexivity|]. now apply truthy_append_l.
  - destruct s as [|y s'].
    + eexists _, _; split; [reflexivity | exact Hp].
    + destruct (matchAt r n0 (String y s')) as [[rest c]|].
      * rewrite Hp, andb_false_r.
        eexists _, _; split; [reflexivity | exact Hp].
      * apply IH. now apply truthy_append_l.
Qed.

Lemma split_whitespace_head (line : string) :
  truthy line = true -> startsWithWhiteSpace line = false ->
  exists h t, splitRegex OcrProcessor.whitespaceRun line = h :: t /\ truthy h = true.
Proof.
  destruct line as [|x s]; [discriminate|]. intros _ Hx. simpl in Hx.
  unfold splitRegex.
  replace (2 * String.length (String x s) + 2)%nat
    with (S (2 * String.length (String x s) + 1))%nat by lia.
  cbn [splitFrom]. unfold matchAt, OcrProcessor.whitespaceRun. cbn [rmatch].
  rewrite Hx. apply splitFrom_head. reflexivity.
Qed.

Lemma includes_empty_false (k : string) :
  truthy k = true -> includes EmptyString k = false.
Proof. now destruct k. Qed.

End ParserFacts.

Section ParserClaims.
Import JS.

(** C3.  For the line "Amoxicillin 250mg tablet twice daily for 7 days" the
    field parser ([extractPrescriptionData]) returns one medication, whose
    dosage is "250mg", whose frequency is "Twice daily" and whose duration
    is "7 days". *)
Theorem amoxicillin_line_is_parsed :
  exists data m,
    OcrProcessor.extractPrescriptionData
      "Amoxicillin 250mg tablet twice daily for 7 days" = Returned data
    /\ OcrProcessor.medications data = [m]
    /\ OcrProcessor.name m = "Amoxicillin"
    /\ OcrProcessor.dosage m = "250mg"
    /\ OcrProcessor.frequency m = "Twice daily"
    /\ OcrProcessor.duration m = "7 days".
Proof.
  eexists _, _. vm_compute. repeat split; reflexivity.
Qed.

(** Greedy [p*] followed by a continuation that accepts the end of input
    swallows a string made of [p] only. *)
Lemma star_all {R} p s c (k : string -> captures -> option R) :
  (forall x pre post, s = pre +:+ String x post -> p x = true) ->
  is_Some (k EmptyString c) ->
  star p s c k = k EmptyString c.
Proof.
  intros Hall [r Hr]. induction s as [|x s IH]; simpl; [reflexivity|].
  rewrite (Hall x EmptyString s eq_refl).
  rewrite IH.
  - now rewrite Hr.
  - intros y pre post ->. apply (Hall y (String x pre) post). reflexivity.
Qed.

Lemma execFrom_here r n0 pre s s' c :
  matchAt r n0 s = Some (s', c) ->
  execFrom r n0 pre s = Some (mkMatch pre (taken s s') s' c).
Proof. intros H. destruct s; cbn [execFrom]; rewrite H; reflexivity. Qed.

(** A matching line without a colon is replaced by the empty string: the
    label pattern, whose colon is optional, consumes all of it. *)
Lemma stripLabel_without_colon (line : string) :
  (forall pre post, line <> pre +:+ String ":"%char post) ->
  OcrProcessor.stripLabel line = EmptyString.
Proof.
  intros Hno. unfold OcrProcessor.stripLabel, replaceEmpty, exec.
  assert (E : matchAt OcrProcessor.labelPrefix (String.length line) line
              = Some (EmptyString, noCaptures)).
  { unfold matchAt, OcrProcessor.labelPrefix. cbn [rmatch].
    rewrite Nat.eqb_refl. apply star_all; [|simpl; eauto].
    intros x pre post ->. unfold notChr.
    destruct (Ascii.eqb x ":"%char) eqn:Ex; [|reflexivity].
    apply Ascii.eqb_eq in Ex. subst x. now destruct (Hno pre post). }
  rewrite (execFrom_here _ _ _ _ _ _ E). reflexivity.
Qed.

(** C4.  The line "Dr. Smith" has no label, yet the doctor field it decides
    is the empty string, in the backend parser and in the upload page
    alike; the claim has the line itself returned. *)
Theorem colonless_doctor_line_is_emptied :
  (exists data,
      OcrProcessor.extractPrescriptionData "Dr. Smith" = Returned data
      /\ OcrProcessor.doctorName data = Some EmptyString)
  /\ PrescriptionUpload.doctorName
       (PrescriptionUpload.parsePrescriptionText "Dr. Smith") = EmptyString.
Proof.
  split; [eexists; split|]; vm_compute; reflexivity.
Qed.

(** C5.  The field parser returns a structured result for every text and
    never throws.  Each of its five fields is decided by the first
    non-blank line that mentions one of the field's keywords, and is the
    sentinel ([null], "Not detected" in the upload page) when no line
    does. *)
Theorem parser_never_throws (text : string) :
  (exists data,
      OcrProcessor.extractPrescriptionData text = Returned data
      /\ forall f,
           OcrProcessor.fieldOf f data =
           match List.find (OcrProcessor.mentions (OcrProcessor.fieldKeywords f))
                           (OcrProcessor.nonBlankLines text) with
           | Some line => Some (OcrProcessor.stripLabel line)
           | None => None
           end)
  /\ forall f,
       PrescriptionUpload.fieldOf f (PrescriptionUpload.parsePrescriptionText text) =
       match List.find (PrescriptionUpload.mentions (PrescriptionUpload.fieldKeywords f))
                       (PrescriptionUpload.nonBlankLines text) with
       | Some line => PrescriptionUpload.stripLabel line
       | None => "Not detected"
       end.
Proof.
  split.
  - unfold OcrProcessor.extractPrescriptionData, OcrProcessor.extractMedications.
    destruct (medicationLoop_returns (OcrProcessor.nonBlankLines text) []) as [meds ->].
    cbn [bind]. eexists; split; [reflexivity|].
    intros []; cbn [OcrProcessor.fieldOf OcrProcessor.fieldKeywords
                    OcrProcessor.doctorName OcrProcessor.patientName OcrProcessor.date
                    OcrProcessor.diagnosis OcrProcessor.instructions];
      apply extractField_first_match.
  - intros []; cbn [PrescriptionUpload.fieldOf PrescriptionUpload.fieldKeywords
                    PrescriptionUpload.parsePrescriptionText
                    PrescriptionUpload.doctorName PrescriptionUpload.patientName
                    PrescriptionUpload.date PrescriptionUpload.diagnosis
                    PrescriptionUpload.instructions];
      apply page_extractField_first_match.
Qed.

End ParserClaims.

Section MedicationLines.
Import JS.

(** The upload page lists the trimmed keyword lines, in order. *)
Lemma page_medicationLoop_filter (lines : list string) : forall acc,
  PrescriptionUpload.medicationLoop lines acc =
  acc ++ map trim (List.filter
                     (PrescriptionUpload.mentions PrescriptionUpload.medicationKeywords)
                     lines).
Proof.
  induction lines as [|line rest IH]; intros acc;
    cbn [PrescriptionUpload.medicationLoop List.filter].
  - now rewrite app_nil_r.
  - destruct (PrescriptionUpload.mentions PrescriptionUpload.medicationKeywords line).
    + rewrite IH, <- app_assoc. reflexivity.
    + apply IH.
Qed.

(** The backend loop handles one line after the other. *)
Lemma medicationLoop_step (line : string) (rest : list string) acc :
  OcrProcessor.medicationLoop (line :: rest) acc =
  bind (OcrProcessor.medicationLoop [line] acc) (OcrProcessor.medicationLoop rest).
Proof.
  cbn [OcrProcessor.medicationLoop].
  destruct (OcrProcessor.mentions OcrProcessor.medicationKeywords line); [|reflexivity].
  destruct (OcrProcessor.medicationOf line) as [m|e]; cbn [bind]; [|reflexivity].
  destruct (truthy (OcrProcessor.name m)); reflexivity.
Qed.

(** C6, as stated, fails twice.  In the backend parser the line
    " Amoxicillin 250mg tablet" contains keywords of the set and yields no
    medication; in the upload page "1 tab daily" contains "tab" and is not
    a medication line. *)
Lemma keyword_line_not_a_medication_line :
  (containsOneOf OcrProcessor.medicationKeywords " Amoxicillin 250mg tablet"
   /\ OcrProcessor.extractMedications [" Amoxicillin 250mg tablet"] = Returned [])
  /\ (containsOneOf OcrProcessor.medicationKeywords "1 tab daily"
      /\ PrescriptionUpload.extractMedications ["1 tab daily"]
         = ["No medications detected"]).
Proof.
  repeat split; try (vm_compute; reflexivity).
  - exists "mg". split; [simpl; tauto|]. exists " amoxicillin 250", " tablet". reflexivity.
  - exists "tab". split; [simpl; tauto|]. exists "1 ", " daily". reflexivity.
Qed.

(** C6, amended.  In the backend parser a line yields a medication only if
    its lowercase content contains one of the eight keywords, and a line
    that does not begin with whitespace yields one if it does.  In the
    upload page a line is listed if and only if its lowercase content
    contains one of the six keywords of the page. *)
Theorem medication_line_keywords (line : string) :
  ((exists m, OcrProcessor.extractMedications [line] = Returned [m]) ->
   containsOneOf OcrProcessor.medicationKeywords line)
  /\ (startsWithWhiteSpace line = false ->
      containsOneOf OcrProcessor.medicationKeywords line ->
      exists m, OcrProcessor.extractMedications [line] = Returned [m])
  /\ (PrescriptionUpload.medicationLoop [line] [] = [trim line] <->
      containsOneOf PrescriptionUpload.medicationKeywords line).
Proof.
  unfold OcrProcessor.extractMedications. cbn [OcrProcessor.medicationLoop].
  repeat split.
  - intros [m H]. apply mentions_spec.
    destruct (OcrProcessor.mentions OcrProcessor.medicationKeywords line);
      [reflexivity | discriminate].
  - intros Hws Hk. apply mentions_spec in Hk. rewrite Hk.
    assert (Hne : truthy line = true).
    { destruct line; [vm_compute in Hk; discriminate | reflexivity]. }
    destruct (medicationOf_returns line) as (m & -> & Hname). cbn [bind].
    destruct (split_whitespace_head line Hne Hws) as (h & t & Hsplit & Hh).
    rewrite Hsplit in Hname. rewrite Hname, Hh. exists m. reflexivity.
  - rewrite page_medicationLoop_filter. cbn [List.filter]. intros H.
    apply (mentions_spec PrescriptionUpload.medicationKeywords line).
    change (OcrProcessor.mentions PrescriptionUpload.medicationKeywords line)
      with (PrescriptionUpload.mentions PrescriptionUpload.medicationKeywords line).
    destruct (PrescriptionUpload.mentions PrescriptionUpload.medicationKeywords line);
      [reflexivity | discriminate].
  - intros H. apply (mentions_spec PrescriptionUpload.medicationKeywords line) in H.
    rewrite page_medicationLoop_filter. cbn [List.filter].
    change (OcrProcessor.mentions PrescriptionUpload.medicationKeywords line)
      with (PrescriptionUpload.mentions PrescriptionUpload.medicationKeywords line) in H.
    rewrite H. reflexivity.
Qed.

(** C10.  The medication list of the upload page is never empty: it is the
    list of trimmed keyword lines when there is one, and otherwise the one
    entry "No medications detected", a string in a list of strings like
    any parsed line. *)
Theorem page_medications_never_empty (text : string) :
  let lines := PrescriptionUpload.nonBlankLines text in
  let keyword := PrescriptionUpload.mentions PrescriptionUpload.medicationKeywords in
  let meds := PrescriptionUpload.medications (PrescriptionUpload.parsePrescriptionText text) in
  meds <> []
  /\ meds = if existsb keyword lines
            then map trim (List.filter keyword lines)
            else ["No medications detected"].
Proof.
  cbn zeta. cbn [PrescriptionUpload.parsePrescriptionText PrescriptionUpload.medications].
  unfold PrescriptionUpload.extractMedications.
  rewrite page_medicationLoop_filter. cbn [app].
  generalize (PrescriptionUpload.nonBlankLines text) as lines.
  induction lines as [|line rest [IH1 IH2]]; cbn [existsb List.filter].
  - split; [discriminate | reflexivity].
  - destruct (PrescriptionUpload.mentions PrescriptionUpload.medicationKeywords line);
      cbn [map orb].
    + split; [|reflexivity]. cbn. discriminate.
    + split; assumption.
Qed.

End MedicationLines.

(** ** Dates *)

Section DateFacts.
Import JSDate.
Local Open Scope Z_scope.

Lemma DaysInYear_range (y : Z) : DaysInYear y = 365 \/ DaysInYear y = 366.
Proof.
  unfold DaysInYear.
  destruct (y mod 4 =? 0), (y mod 100 =? 0), (y mod 400 =? 0); simpl; auto.
Qed.

Lemma DayFromYear_succ (y : Z) : DayFromYear (y + 1) = DayFromYear y + DaysInYear y.
Proof.
  unfold DayFromYear, DaysInYear.
  destruct (Z.eqb_spec (y mod 4) 0), (Z.eqb_spec (y mod 100) 0),
           (Z.eqb_spec (y mod 400) 0); simpl negb; cbv iota;
    Z.div_mod_to_equations; lia.
Qed.

Lemma monthStart_leap (m a b : Z) :
  0 <= a <= 1 -> 0 <= b <= 1 -> -1 <= monthStart m a - monthStart m b <= 1.
Proof.
  intros Ha Hb. unfold monthStart.
  destruct m as [|p|p]; [lia | | lia].
  do 4 (try (destruct p as [p|p|]; try lia)).
Qed.

Lemma MonthFromTime_range (t : Z) : 0 <= MonthFromTime t <= 11.
Proof.
  unfold MonthFromTime.
  repeat match goal with |- context [if ?b then _ else _] => destruct b end; lia.
Qed.

Lemma leap_flag_range (y : Z) : 0 <= (if DaysInYear y =? 366 then 1 else 0) <= 1.
Proof. destruct (DaysInYear y =? 366); lia. Qed.

(** Moving a local time to the same month and day of the next year moves
    it forward by 364 to 367 days. *)
Lemma next_year_same_day (t : Z) :
  let u := MakeDate (MakeDay (YearFromTime t + 1) (MonthFromTime t) (DateFromTime t))
                    (TimeWithinDay t) in
  t + 364 * msPerDay <= u <= t + 367 * msPerDay.
Proof.
  cbn zeta. unfold MakeDate, MakeDay, DateFromTime, DayWithinYear.
  pose proof (MonthFromTime_range t) as Hm.
  rewrite (Z.div_small (MonthFromTime t) 12) by lia.
  rewrite (Z.mod_small (MonthFromTime t) 12) by lia.
  rewrite Z.add_0_r, DayFromYear_succ.
  pose proof (DaysInYear_range (YearFromTime t)) as Hd.
  pose proof (monthStart_leap (MonthFromTime t)
                (if DaysInYear (YearFromTime t + 1) =? 366 then 1 else 0)
                (InLeapYear t) (leap_flag_range _) (leap_flag_range _)) as Hs.
  unfold TimeWithinDay, Day, msPerDay in *.
  Z.div_mod_to_equations. lia.
Qed.

Section Zone.
Variable LocalTZA : Z -> bool -> Z.
Hypothesis LocalTZA_bound : forall t b, Z.abs (LocalTZA t b) < msPerDay.

  (** One year after a representable date whose next year is representable
      too, [plusOneYear] is a valid date 362 to 369 days later. *)
Lemma plusOneYear_bounds (t : Z) :
    - maxTime <= t <= maxTime - 369 * msPerDay ->
    exists e, plusOneYear LocalTZA (TimeValue t) = TimeValue e
              /\ t + 362 * msPerDay <= e <= t + 369 * msPerDay.
  Proof.
    intros Ht. unfold plusOneYear, getFullYear, option_map, setFullYear.
    pose proof (next_year_same_day (LocalTime LocalTZA t)) as Hn. cbn zeta in Hn.
    set (u := MakeDate _ _) in *.
    pose proof (LocalTZA_bound t true) as H1.
    pose proof (LocalTZA_bound u false) as H2.
    assert (Hu : t + 362 * msPerDay <= UTC LocalTZA u <= t + 369 * msPerDay).
    { unfold UTC, LocalTime, msPerDay in *. lia. }
    exists (UTC LocalTZA u). split; [|exact Hu].
    unfold TimeClip.
    destruct (Z.leb_spec (Z.abs (UTC LocalTZA u)) maxTime) as [_|Hbad]; [reflexivity|].
    unfold maxTime, msPerDay in *. lia.
  Qed.

Lemma plusOneYear_geb (t : Z) :
    - maxTime <= t <= maxTime - 369 * msPerDay ->
    geb (plusOneYear LocalTZA (TimeValue t)) (TimeValue t) = true.
  Proof.
    intros Ht. destruct (plusOneYear_bounds t Ht) as (e & -> & He).
    simpl. apply Z.leb_le. unfold msPerDay in He. lia.
  Qed.
End Zone.

End DateFacts.

Section YearFacts.
Import JSDate.
Local Open Scope Z_scope.

Lemma yearSearch_spec (fuel : nat) : forall y d,
  DayFromYear y <= d -> d < DayFromYear (y + Z.of_nat fuel) ->
  DayFromYear (yearSearch fuel y d) <= d < DayFromYear (yearSearch fuel y d + 1).
Proof.
  induction fuel as [|fuel IH]; intros y d Hlo Hhi.
  - simpl in Hhi. rewrite Z.add_0_r in Hhi. lia.
  - cbn [yearSearch]. destruct (Z.leb_spec (DayFromYear (y + 1)) d) as [Hle|Hgt].
    + apply IH; [exact Hle|].
      replace (y + 1 + Z.of_nat fuel) with (y + Z.of_nat (S fuel)) by lia. exact Hhi.
    + lia.
Qed.

(** Over the days a [Date] can hold, [YearFromDay] is the year the day
    falls in. *)
Lemma YearFromDay_spec (d : Z) :
  -100000000 <= d <= 100000000 ->
  DayFromYear (YearFromDay d) <= d < DayFromYear (YearFromDay d + 1).
Proof.
  intros Hd. unfold YearFromDay. apply yearSearch_spec.
  - unfold DayFromYear. Z.div_mod_to_equations. lia.
  - unfold DayFromYear. change (Z.of_nat 1000) with 1000.
    Z.div_mod_to_equations. lia.
Qed.

End YearFacts.

(** ** Prescription records *)

Section RecordFacts.
Import JS JSDate PrescriptionModel.
Local Open Scope Z_scope.

Lemma reduce_totalRefills (meds : list Medication) : forall total,
  fold_left (fun total med => total + refills med) meds total
  = total + totalRefills meds.
Proof.
  induction meds as [|med rest IH]; intros total; simpl; [lia|].
  rewrite IH. lia.
Qed.

(** C9.  [remainingRefills] is the larger of zero and the sum of the
    medications' refills minus [refillsUsed]; it is never negative. *)
Theorem remainingRefills_formula (p : Prescription) :
  remainingRefills p = Z.max 0 (totalRefills (medications p) - refillsUsed p)
  /\ 0 <= remainingRefills p.
Proof.
  unfold remainingRefills. rewrite reduce_totalRefills. split; lia.
Qed.

Variable LocalTZA : Z -> bool -> Z.

Lemma preSave_prescriptionDate g p :
  prescriptionDate (preSave LocalTZA g p) = prescriptionDate p.
Proof.
  unfold preSave. destruct p as [i n pa dn dl ms im et oc st vs pd ed iv ru os pr].
  cbn. destruct n as [n|]; [destruct (truthy n)|]; cbn;
    destruct ed, pd; reflexivity.
Qed.

Lemma preSave_expiryDate_kept g p e :
  expiryDate p = Some e -> expiryDate (preSave LocalTZA g p) = Some e.
Proof.
  unfold preSave. destruct p as [i n pa dn dl ms im et oc st vs pd ed iv ru os pr].
  cbn. intros ->. destruct n as [n|]; [destruct (truthy n)|]; reflexivity.
Qed.

(** The hook's default: a document saved without an expiry date gets its
    prescription date plus one year. *)
Lemma preSave_expiryDate_default g p d :
  expiryDate p = None -> prescriptionDate p = Some d ->
  expiryDate (preSave LocalTZA g p) = Some (plusOneYear LocalTZA d).
Proof.
  unfold preSave. destruct p as [i n pa dn dl ms im et oc st vs pd ed iv ru os pr].
  cbn. intros -> ->. destruct n as [n|]; [destruct (truthy n)|]; reflexivity.
Qed.

End RecordFacts.

(** ** Prescription handlers *)

Section HandlerFacts.
Import JS JSDate PrescriptionModel Controllers.
Local Open Scope Z_scope.

Variable LocalTZA : Z -> bool -> Z.
Variable recognize : string -> outcome (string * Q).
Variable deliver : Email.t -> bool.

Lemma save_spec ctx p w e :
  expiryDate p = Some e ->
  exists p' w',
    save LocalTZA ctx p w = (p', w')
    /\ prescriptionDate p' = prescriptionDate p
    /\ expiryDate p' = Some e
    /\ prescriptions w' !! _id p' = Some p'
    /\ ocrLog w' = ocrLog w /\ users w' = users w /\ outbox w' = outbox w.
Proof.
  intros He. unfold save. eexists _, _. split; [reflexivity|].
  rewrite preSave_prescriptionDate, (preSave_expiryDate_kept _ _ _ _ He).
  cbn. rewrite lookup_insert_eq. repeat split.
Qed.

(** The OCR stage calls the engine once, on the URL it is given. *)
Lemma ocrStage_spec ctx imageUrl p w e :
  expiryDate p = Some e ->
  exists b p' w',
    ocrStage LocalTZA recognize ctx imageUrl p w = (b, p', w')
    /\ prescriptionDate p' = prescriptionDate p
    /\ expiryDate p' = Some e
    /\ prescriptions w' !! _id p' = Some p'
    /\ ocrLog w' = ocrLog w ++ [imageUrl]
    /\ users w' = users w /\ outbox w' = outbox w.
Proof.
  intros He. unfold ocrStage.
  destruct (save_spec ctx (setStatus processing p) w e He)
    as (p1 & w1 & -> & Hd1 & He1 & _ & Hl1 & Hu1 & Ho1).
  unfold callOCR.
  destruct (OcrProcessor.processOCR recognize imageUrl) as [r|err].
  - destruct (save_spec ctx
                (setStatus pending_verification
                   (setOcr (OcrProcessor.text r) (OcrProcessor.confidence r) p1))
                (setOcrLog (ocrLog w1 ++ [imageUrl]) w1) e He1)
      as (p2 & w2 & -> & Hd2 & He2 & Hs2 & Hl2 & Hu2 & Ho2).
    exists true, p2, w2. split; [reflexivity|].
    cbn in Hd1, Hd2, Hl2, Hu2, Ho2. repeat split; congruence.
  - destruct (save_spec ctx (setStatus pending_verification p1)
                (setOcrLog (ocrLog w1 ++ [imageUrl]) w1) e He1)
      as (p2 & w2 & -> & Hd2 & He2 & Hs2 & Hl2 & Hu2 & Ho2).
    exists false, p2, w2. split; [reflexivity|].
    cbn in Hd1, Hd2, Hl2, Hu2, Ho2. repeat split; congruence.
Qed.

(** A document without a prescription number does not validate. *)
Lemma validate_without_number (p : Prescription) :
  prescriptionNumber p = None ->
  exists rest,
    validate p
    = (Top "prescriptionNumber", Required (Some "Prescription number is required"))
      :: rest.
Proof. intros H. unfold validate. rewrite H. cbn. eauto. Qed.

(** Nor does a document without an expiry date. *)
Lemma validate_without_expiry (p : Prescription) :
  expiryDate p = None ->
  In (Top "expiryDate", Required (Some "Prescription expiry date is required"))
     (validate p).
Proof.
  intros H. unfold validate. rewrite H. cbn [requiredDate failuresAt map].
  rewrite !in_app_iff. do 7 right. left. left. reflexivity.
Qed.

(** A document that does not validate is refused and nothing is stored. *)
Lemma create_refused ctx doc w failure :
  In failure (validate doc) ->
  create LocalTZA ctx doc w = (inl (mkValidationError (validate doc)), w).
Proof.
  intros Hin. unfold create. destruct (validate doc); [destruct Hin | reflexivity].
Qed.

(** Every request ends in one of two ways, neither of which creates a
    record: the handler's own refusal, or the validation error of
    [Prescription.create], whose document has no prescription number. *)
Lemma uploadPrescription_outcome ctx user body files w :
  uploadPrescription LocalTZA recognize deliver ctx user body files w
  = (Replied (Next (mkAppError "Missing required prescription information" 400)), w)
  \/ exists failures,
       uploadPrescription LocalTZA recognize deliver ctx user body files w
       = (Threw (mkValidationError failures), w)
       /\ In (Top "prescriptionNumber",
              Required (Some "Prescription number is required")) failures.
Proof.
  unfold uploadPrescription.
  destruct (body_doctorName body) as [dn|]; [|now left].
  destruct (body_doctorLicenseNumber body) as [dl|]; [|now left].
  destruct (body_medications body) as [meds|]; [|now left].
  destruct (body_prescriptionDate body) as [d|]; [|now left].
  destruct (negb (truthy dn) || negb (truthy dl)); [now left|].
  right.
  match goal with |- context [create LocalTZA ctx ?doc w] =>
    destruct (validate_without_number doc eq_refl) as [rest Hv];
    assert (Hin : In (Top "prescriptionNumber",
                      Required (Some "Prescription number is required"))
                     (validate doc)) by (rewrite Hv; left; reflexivity);
    rewrite (create_refused ctx doc w _ Hin)
  end.
  eexists. split; [reflexivity | exact Hin].
Qed.



End HandlerFacts.

Section HandlerClaims.
Import JS JSDate PrescriptionModel Controllers.
Local Open Scope Z_scope.

(** C8.  The claim has a record created without an expiry date get the
    prescription date plus one year, and the save hook does compute that
    date, 362 to 369 days after the prescription date.  But the schema
    requires the expiry date and the prescription number, and validation
    comes before the hook: a document without an expiry date is refused
    and stored nowhere, and so is the document of every upload, which has
    the expiry date and no prescription number.  The sample upload, a
    complete request, ends in the validation error and leaves the store
    as it was. *)
Theorem creation_is_refused_before_the_defaults :
  uploadPrescription Sample.utc Sample.engine Sample.mailer Sample.ctx
    Sample.patientUser Sample.upload Sample.twoImages Sample.world
  = (Threw (mkValidationError
              [(Top "prescriptionNumber",
                Required (Some "Prescription number is required"))]),
     Sample.world)
  /\ (forall LocalTZA ctx doc w,
         expiryDate doc = None ->
         create LocalTZA ctx doc w = (inl (mkValidationError (validate doc)), w)
         /\ In (Top "expiryDate",
                Required (Some "Prescription expiry date is required"))
               (validate doc))
  /\ (forall LocalTZA generated doc t,
         (forall u b, Z.abs (LocalTZA u b) < msPerDay) ->
         - maxTime <= t <= maxTime - 369 * msPerDay ->
         expiryDate doc = None ->
         prescriptionDate doc = Some (TimeValue t) ->
         exists e,
           expiryDate (preSave LocalTZA generated doc) = Some (TimeValue e)
           /\ t + 362 * msPerDay <= e <= t + 369 * msPerDay)
  /\ (forall LocalTZA recognize deliver ctx user body files w reply w',
         uploadPrescription LocalTZA recognize deliver ctx user body files w
         = (reply, w') ->
         w' = w /\ forall code p, reply <> Replied (Json code p)).
Proof.
  split; [vm_compute; reflexivity|]. split; [|split].
  - intros tz ctx doc w He.
    pose proof (validate_without_expiry doc He) as Hin.
    split; [exact (create_refused tz ctx doc w _ Hin) | exact Hin].
  - intros tz g doc t Hzone Hrange He Hd.
    destruct (plusOneYear_bounds tz Hzone t Hrange) as (e & Ee & Hb).
    exists e. split; [|exact Hb].
    now rewrite (preSave_expiryDate_default tz g doc _ He Hd), Ee.
  - intros tz recognize deliver ctx user body files w reply w' H.
    destruct (uploadPrescription_outcome tz recognize deliver ctx user body files w)
      as [E|(failures & E & _)]; rewrite E in H; injection H as <- <-;
      (split; [reflexivity | discriminate]).
Qed.

(** The date of the sample, 29 February 2024, moves to 1 March 2025. *)
Example plusOneYear_leap_day :
  plusOneYear Sample.utc (TimeValue 1709210096789) = TimeValue 1740832496789.
Proof. vm_compute. reflexivity. Qed.

(** C2, as stated, fails: the error a second verification is answered with
    carries status code 400, not 409. *)
Lemma verify_verified_is_not_a_409 :
  exists err,
    verifyPrescription Sample.utc Sample.ctx Sample.pharmacist "rx-1"
      (mkVerifyBody true None None) Sample.world = (Next err, Sample.world)
    /\ statusCode err = 400
    /\ (statusCode err =? 409) = false.
Proof.
  eexists. split; [vm_compute; reflexivity|]. split; reflexivity.
Qed.

(** C2, amended.  Verifying a record whose status is already [verified] is
    rejected with the error "Prescription is already verified", status
    code 400, and leaves every collection as it was. *)
Theorem verify_verified_is_rejected
    (LocalTZA : Z -> bool -> Z) (ctx : Context) (user : User.t) (id : string)
    (body : VerifyBody) (w : World) (p : Prescription)
    (Hfound : prescriptions w !! id = Some p)
    (Hverified : status p = verified) :
  verifyPrescription LocalTZA ctx user id body w
  = (Next (mkAppError "Prescription is already verified" 400), w).
Proof.
  unfold verifyPrescription. rewrite Hfound, Hverified. reflexivity.
Qed.

Lemma verify_verified_is_rejected_witness :
  verifyPrescription Sample.utc Sample.ctx Sample.pharmacist "rx-1"
    (mkVerifyBody false None (Some "illegible")) Sample.world
  = (Next (mkAppError "Prescription is already verified" 400), Sample.world).
Proof.
  apply (verify_verified_is_rejected Sample.utc Sample.ctx Sample.pharmacist "rx-1"
           (mkVerifyBody false None (Some "illegible")) Sample.world Sample.approved).
  - vm_compute. reflexivity.
  - reflexivity.
Defined.

End HandlerClaims.

Section OcrClaims.
Import JS JSDate PrescriptionModel Controllers.





End OcrClaims.

(** ** The order gate *)

Section OrderGate.
Import JS PrescriptionModel Controllers.

Lemma covers_spec (productName : string) (p : Prescription) :
  covers productName p = true <->
  exists med, In med (medications p)
    /\ (contains (toLowerCase (name med)) (toLowerCase productName)
        \/ contains (toLowerCase productName) (toLowerCase (name med))).
Proof.
  unfold covers. rewrite existsb_exists.
  split; intros (med & Hin & H); exists med; (split; [exact Hin|]).
  - apply orb_true_iff in H as [H|H]; [left | right]; now apply includes_spec.
  - apply orb_true_iff. destruct H as [H|H]; [left | right]; now apply includes_spec.
Qed.

(** The test the handler makes is the gate of the specification. *)
Lemma validPrescription_spec (supplied : option (list Prescription)) (productName : string) :
  present (validPrescription supplied productName) = true <-> Covered supplied productName.
Proof.
  unfold Covered, validPrescription. destruct supplied as [ps|]; simpl.
  - destruct (List.find (covers productName) ps) as [p|] eqn:E; simpl.
    + apply List.find_some in E as [Hin Hc]. apply covers_spec in Hc as (med & Hm & H).
      split; [intros _; exists ps, p, med; auto | reflexivity].
    + split; [discriminate|]. intros (ps' & p & med & [= <-] & Hin & Hm & H).
      pose proof (List.find_none _ _ E p Hin) as Hn.
      assert (Hc : covers productName p = true) by (apply covers_spec; eauto).
      congruence.
  - split; [discriminate|]. intros (ps & p & med & H & _). discriminate.
Qed.

Lemma sameListing_refl (a : gmap string Product.t) : sameListing a a.
Proof. intros id. reflexivity. Qed.

Lemma sameListing_reserve (a b : gmap string Product.t) key product n :
  sameListing a b -> b !! key = Some product ->
  sameListing a (<[key := Product.reserve n product]> b).
Proof.
  intros Hab Hb id. destruct (decide (key = id)) as [<-|Hne].
  - rewrite lookup_insert_eq, Hab, Hb. reflexivity.
  - rewrite lookup_insert_ne by exact Hne. apply Hab.
Qed.

(** A loop that runs to its end has found a covering prescription for every
    line whose product requires one. *)
Lemma itemLoop_gate supplied (its : list Item.t) :
  forall subtotal orderItems catalogue0 catalogue catalogue' total lines,
    sameListing catalogue0 catalogue ->
    itemLoop supplied its subtotal orderItems catalogue = (catalogue', inr (total, lines)) ->
    forall item product,
      In item its -> catalogue0 !! Item.product item = Some product ->
      Product.prescriptionRequired product = true ->
      Covered supplied (Product.name product).
Proof.
  induction its as [|it rest IH];
    intros subtotal orderItems catalogue0 catalogue catalogue' total lines Hsame Hloop
           item product Hin Hlook Hreq; [contradiction|].
  cbn [itemLoop] in Hloop.
  destruct (catalogue !! Item.product it) as [found|] eqn:Ef; [|discriminate].
  destruct (negb (Product.isActive found)); [discriminate|].
  destruct (Product.quantity found <? Item.quantity it)%Z; [discriminate|].
  destruct (Product.prescriptionRequired found
            && negb (present (validPrescription supplied (Product.name found)))) eqn:Eg;
    [discriminate|].
  destruct Hin as [<-|Hin].
  - pose proof (Hsame (Item.product it)) as Hs. rewrite Hlook, Ef in Hs.
    simpl in Hs. injection Hs as Hn Hr.
    rewrite Hn. apply validPrescription_spec.
    rewrite <- Hr, Hreq in Eg. simpl in Eg.
    now destruct (present (validPrescription supplied (Product.name found))).
  - eapply IH; [| exact Hloop | exact Hin | exact Hlook | exact Hreq].
    now apply sameListing_reserve.
Qed.

(** An order is created only at the end, and only if the loop ran to its
    end. *)
Lemma createOrder_outcome (user : User.t) (body : OrderBody) (w : World) :
  (exists err w', createOrder user body w = (Next err, w')
                  /\ orders w' = orders w /\ carts w' = carts w)
  \/ (exists order w' its catalogue' total lines,
         createOrder user body w = (Json 201 order, w')
         /\ orders w' = orders w ++ [order]
         /\ items body = Some its
         /\ itemLoop (prescriptions_supplied body) its 0%Q [] (products w)
            = (catalogue', inr (total, lines))
         /\ Order.items order = lines).
Proof.
  unfold createOrder.
  destruct (items body) as [[|it rest]|]; [left; eauto | | left; eauto].
  destruct (shippingAddress body) as [shipTo|]; [|left; eauto].
  destruct (itemLoop (prescriptions_supplied body) (it :: rest) 0%Q [] (products w))
    as [catalogue' [err|[total lines]]] eqn:E.
  - left. eauto.
  - right. eexists _, _, (it :: rest), catalogue', total, lines.
    split; [reflexivity|]. split; [reflexivity|]. split; [reflexivity|].
    split; [exact E | reflexivity].
Qed.

(** C1.  If some line of the cart is a product flagged
    [prescriptionRequired] and no supplied prescription has a medication
    whose name matches the product name, case-insensitively, by containment
    in either direction, then order creation fails and no order is
    created. *)
Theorem order_gate
    (user : User.t) (body : OrderBody) (w : World)
    (its : list Item.t) (item : Item.t) (product : Product.t)
    (Hitems : items body = Some its)
    (Hline : In item its)
    (Hproduct : products w !! Item.product item = Some product)
    (Hrequired : Product.prescriptionRequired product = true)
    (Hnomatch : ~ Covered (prescriptions_supplied body) (Product.name product)) :
  exists err w',
    createOrder user body w = (Next err, w') /\ orders w' = orders w.
Proof.
  destruct (createOrder_outcome user body w)
    as [(err & w' & E & Ho & _) | (order & w' & its' & c' & total & lines & E & _ & Hi & Hl & _)].
  - eauto.
  - rewrite Hitems in Hi. injection Hi as <-. exfalso. apply Hnomatch.
    eapply itemLoop_gate; [apply sameListing_refl | exact Hl | exact Hline
                           | exact Hproduct | exact Hrequired].
Qed.

(** The cart of the sample holds "Amoxicillin 250mg"; the prescription
    supplied is for "Ibuprofen". *)
Lemma order_gate_witness :
  exists err w',
    createOrder Sample.patientUser (Sample.order (Some [Sample.otherRx])) Sample.world
    = (Next err, w')
    /\ orders w' = orders Sample.world.
Proof.
  apply (order_gate Sample.patientUser (Sample.order (Some [Sample.otherRx])) Sample.world
           [Item.mk "p-vitc" 2 None; Item.mk "p-amox" 1 (Some "rx-1")]
           (Item.mk "p-amox" 1 (Some "rx-1")) Sample.amoxicillin).
  - reflexivity.
  - simpl. tauto.
  - vm_compute. reflexivity.
  - reflexivity.
  - intros H. apply validPrescription_spec in H. vm_compute in H. discriminate.
Defined.

(** The same cart with a prescription for "Amoxicillin" is accepted. *)
Example order_with_matching_prescription :
  exists order w',
    createOrder Sample.patientUser (Sample.order (Some [Sample.approved])) Sample.world
    = (Json 201 order, w')
    /\ orders w' = [order].
Proof. eexists _, _. split; vm_compute; reflexivity. Qed.

(** The stock reserved for the lines before the failing one stays reserved
    when the order is refused. *)
Example refused_order_keeps_reservations :
  Product.reserved <$>
    (products (snd (createOrder Sample.patientUser
                      (Sample.order (Some [Sample.otherRx])) Sample.world))
       !! "p-vitc")
  = Some 2%Z.
Proof. vm_compute. reflexivity. Qed.

End OrderGate.

(* ===================================================================== *)
(** * Further properties of the handlers *)
(* ===================================================================== *)

Section SaveFacts.
Import JS JSDate PrescriptionModel Controllers.

Variable LocalTZA : Z -> bool -> Z.

(** The save hook touches the number and the expiry date only. *)
Lemma preSave_keeps g p :
  _id (preSave LocalTZA g p) = _id p
  /\ patient (preSave LocalTZA g p) = patient p
  /\ status (preSave LocalTZA g p) = status p
  /\ verificationStatus (preSave LocalTZA g p) = verificationStatus p
  /\ extractedText (preSave LocalTZA g p) = extractedText p
  /\ ocrConfidence (preSave LocalTZA g p) = ocrConfidence p
  /\ images (preSave LocalTZA g p) = images p
  /\ medications (preSave LocalTZA g p) = medications p.
Proof.
  unfold preSave. destruct p as [i n pa dn dl ms im et oc st vs pd ed iv ru os pr].
  cbn. destruct n as [n|]; [destruct (truthy n)|]; cbn;
    destruct ed, pd; cbn; repeat split.
Qed.

Lemma preSave_number_kept g p n :
  prescriptionNumber p = Some n -> truthy n = true ->
  prescriptionNumber (preSave LocalTZA g p) = Some n.
Proof.
  unfold preSave. destruct p as [i n0 pa dn dl ms im et oc st vs pd ed iv ru os pr].
  cbn. intros -> ->. destruct ed, pd; reflexivity.
Qed.

Lemma preSave_number_generated g p :
  prescriptionNumber p = None ->
  prescriptionNumber (preSave LocalTZA g p) = Some ("RX" +:+ g).
Proof.
  unfold preSave. destruct p as [i n0 pa dn dl ms im et oc st vs pd ed iv ru os pr].
  cbn. intros ->. destruct ed, pd; reflexivity.
Qed.

Lemma Status_eqb_eq (a b : Status) : Status_eqb a b = true <-> a = b.
Proof. destruct a, b; simpl; split; congruence. Qed.

End SaveFacts.

Section VerifyFacts.
Import JS JSDate PrescriptionModel Controllers.

(** X1.  A decision on a record that is not yet verified is stored with
    the record: approval gives status [verified], refusal gives status
    [rejected] with the reason of the request (none on approval), and in
    both cases the deciding user is recorded; the medications and the
    prescription date are untouched.  A rejected record can thus still be
    approved later. *)
Theorem verify_records_decision
    (LocalTZA : Z -> bool -> Z) (ctx : Context) (user : User.t) (id : string)
    (body : VerifyBody) (w : World) (p : Prescription)
    (Hfound : prescriptions w !! id = Some p)
    (Hopen : status p <> verified) :
  exists p' w',
    verifyPrescription LocalTZA ctx user id body w = (Json 200 p', w')
    /\ prescriptions w' !! _id p = Some p'
    /\ status p' = (if isApproved body then verified else rejected)
    /\ isVerified (verificationStatus p') = isApproved body
    /\ verifiedBy (verificationStatus p') = Some (User.id user)
    /\ verifiedAt (verificationStatus p') = Some (now ctx)
    /\ rejectionReason (verificationStatus p')
       = (if isApproved body then None else body_rejectionReason body)
    /\ medications p' = medications p
    /\ prescriptionDate p' = prescriptionDate p.
Proof.
  unfold verifyPrescription. rewrite Hfound.
  destruct (Status_eqb (status p) verified) eqn:E.
  { apply Status_eqb_eq in E. contradiction. }
  unfold save.
  match goal with |- context [preSave LocalTZA (generated ctx) ?doc] =>
    set (q := doc);
    destruct (preSave_keeps LocalTZA (generated ctx) q)
      as (Hid & Hpa & Hst & Hvs & _ & _ & _ & Hme);
    pose proof (preSave_prescriptionDate LocalTZA (generated ctx) q) as Hpd
  end.
  cbn zeta.
  destruct (List.find _ _); eexists _, _; (split; [reflexivity|]);
    cbn [prescriptions setOutbox setPrescriptions];
    rewrite Hid, Hst, Hvs, Hme, Hpd; subst q; cbn;
    rewrite lookup_insert_eq; repeat split.
Qed.

Lemma verify_records_decision_witness :
  exists p' w',
    verifyPrescription Sample.utc Sample.ctx Sample.pharmacist Access.Sample.rxId
      (mkVerifyBody false None (Some "illegible")) Access.Sample.world = (Json 200 p', w')
    /\ prescriptions w' !! _id Access.Sample.pending = Some p'
    /\ status p' = rejected
    /\ isVerified (verificationStatus p') = false
    /\ verifiedBy (verificationStatus p') = Some "u-pharm"
    /\ verifiedAt (verificationStatus p') = Some (now Sample.ctx)
    /\ rejectionReason (verificationStatus p') = Some "illegible"
    /\ medications p' = medications Access.Sample.pending
    /\ prescriptionDate p' = prescriptionDate Access.Sample.pending.
Proof.
  apply (verify_records_decision Sample.utc Sample.ctx Sample.pharmacist
           Access.Sample.rxId (mkVerifyBody false None (Some "illegible"))
           Access.Sample.world Access.Sample.pending).
  - vm_compute. reflexivity.
  - discriminate.
Defined.

End VerifyFacts.

Section ReprocessFacts.
Import JS JSDate PrescriptionModel Controllers.

Variable LocalTZA : Z -> bool -> Z.
Variable recognize : string -> outcome (string * Q).





End ReprocessFacts.

Section ReprocessWitnesses.
Import JS JSDate PrescriptionModel Controllers.



End ReprocessWitnesses.

Section UploadFacts.
Import JS JSDate PrescriptionModel Controllers.
Local Open Scope Z_scope.

Variable LocalTZA : Z -> bool -> Z.
Variable recognize : string -> outcome (string * Q).
Variable deliver : Email.t -> bool.

Lemma filter_bool {A : Type} (f : A -> bool) (l : list A) :
  filter (fun x => f x = true) l = List.filter f l.
Proof.
  induction l as [|x l IH]; [reflexivity|].
  rewrite filter_cons. cbn [List.filter]. rewrite IH.
  destruct (decide (f x = true)) as [H|H]; destruct (f x); congruence.
Qed.

(** The mails an upload sends: one to each active pharmacist. *)
Lemma sendAll_delivered (mails : list Email.t) : forall sent,
  (forall m, deliver m = true) ->
  sendAll deliver mails sent = sent ++ mails.
Proof.
  induction mails as [|m rest IH]; intros sent Hok; simpl.
  - now rewrite app_nil_r.
  - rewrite Hok, IH by exact Hok. now rewrite <- app_assoc.
Qed.

(** X6.  The upload handler never creates a record.  A request with
    missing information is refused with "Missing required prescription
    information" (400).  For every other request the document handed to
    [Prescription.create] has no prescription number; validation refuses
    it before the save hook could generate one, and the handler throws
    that validation error.  Either way the state is as before: nothing is
    stored, no image goes through OCR and no mail is sent. *)
Theorem upload_never_creates_a_record ctx user body files w :
  exists reply,
    uploadPrescription LocalTZA recognize deliver ctx user body files w = (reply, w)
    /\ if match body_doctorName body, body_doctorLicenseNumber body,
                body_medications body, body_prescriptionDate body with
          | Some dn, Some dl, Some _, Some _ => truthy dn && truthy dl
          | _, _, _, _ => false
          end
       then exists failures,
           reply = Threw (mkValidationError failures)
           /\ In (Top "prescriptionNumber",
                  Required (Some "Prescription number is required")) failures
       else reply
            = Replied (Next (mkAppError "Missing required prescription information" 400)).
Proof.
  unfold uploadPrescription.
  destruct (body_doctorName body) as [dn|]; [|eexists; split; reflexivity].
  destruct (body_doctorLicenseNumber body) as [dl|]; [|eexists; split; reflexivity].
  destruct (body_medications body) as [meds|]; [|eexists; split; reflexivity].
  destruct (body_prescriptionDate body) as [d|]; [|eexists; split; reflexivity].
  destruct (truthy dn), (truthy dl); cbn [negb orb andb];
    try (eexists; split; reflexivity).
  match goal with |- context [create LocalTZA ctx ?doc w] =>
    destruct (validate_without_number doc eq_refl) as [rest Hv];
    assert (Hin : In (Top "prescriptionNumber",
                      Required (Some "Prescription number is required"))
                     (validate doc)) by (rewrite Hv; left; reflexivity);
    rewrite (create_refused LocalTZA ctx doc w _ Hin)
  end.
  eexists. split; [reflexivity|]. eexists. split; [reflexivity | exact Hin].
Qed.

End UploadFacts.

Section ExpiryFacts.
Import JS JSDate PrescriptionModel Controllers.
Local Open Scope Z_scope.

(** X7.  A record whose expiry date is its prescription date plus one
    year, as the upload handler and the save hook compute it, is not
    expired at any instant up to 362 days after the prescription date. *)
Theorem default_expiry_is_not_expired
    (LocalTZA : Z -> bool -> Z)
    (Hzone : forall t b, Z.abs (LocalTZA t b) < msPerDay)
    (p : Prescription) (t n : Z)
    (Hdate : prescriptionDate p = Some (TimeValue t))
    (Hexpiry : expiryDate p = Some (plusOneYear LocalTZA (TimeValue t)))
    (Hrange : - maxTime <= t <= maxTime - 369 * msPerDay)
    (Hsoon : n <= t + 362 * msPerDay) :
  Access.isExpired (TimeValue n) p = false.
Proof.
  destruct (plusOneYear_bounds LocalTZA Hzone t Hrange) as (e & Ee & Hb).
  unfold Access.isExpired. rewrite Hexpiry, Ee. apply Z.ltb_ge. lia.
Qed.

Lemma default_expiry_is_not_expired_witness :
  Access.isExpired (TimeValue 1720000000000) Sample.approved = false.
Proof.
  apply (default_expiry_is_not_expired Sample.utc) with (t := 1709210096789).
  - intros t b. reflexivity.
  - reflexivity.
  - vm_compute. reflexivity.
  - unfold maxTime, msPerDay. lia.
  - unfold msPerDay. lia.
Defined.

End ExpiryFacts.

Section GuardFacts.
Import JS JSDate PrescriptionModel Controllers.

(** X8.  A request that the verify or the delete handler refuses, and
    every request to the upload handler, leaves every collection as it
    was.  The status code of the error is 404 or 400 (verify) and 404, 403
    or 400 (delete); the upload handler either answers "Missing required
    prescription information" (400) or throws a validation error. *)
Theorem refused_requests_change_nothing
    (LocalTZA : Z -> bool -> Z) (recognize : string -> outcome (string * Q))
    (deliver : Email.t -> bool) :
  (forall ctx user id body w err w',
      verifyPrescription LocalTZA ctx user id body w = (Next err, w') ->
      w' = w /\ (statusCode err = 404 \/ statusCode err = 400)%Z)
  /\ (forall ctx user body files w reply w',
         uploadPrescription LocalTZA recognize deliver ctx user body files w
         = (reply, w') ->
         w' = w
         /\ (reply = Replied (Next (mkAppError
                                     "Missing required prescription information" 400))
             \/ exists error, reply = Threw error))
  /\ (forall user id w err w',
         Access.deletePrescription user id w = (Next err, w') ->
         w' = w /\ (statusCode err = 404 \/ statusCode err = 403
                    \/ statusCode err = 400)%Z).
Proof.
  split; [|split].
  - intros ctx user id body w err w'. unfold verifyPrescription.
    destruct (prescriptions w !! id) as [p|]; [|intros [= <- <-]; auto].
    destruct (Status_eqb (status p) verified); [intros [= <- <-]; auto|].
    unfold save. cbn zeta. destruct (List.find _ _); discriminate.
  - intros ctx user body files w reply w' H.
    destruct (uploadPrescription_outcome LocalTZA recognize deliver ctx user body
                files w) as [E|(failures & E & _)];
      rewrite E in H; injection H as <- <-; eauto.
  - intros user id w err w'. unfold Access.deletePrescription.
    destruct (prescriptions w !! id) as [p|]; [|intros [= <- <-]; auto].
    destruct (negb _); [intros [= <- <-]; auto|].
    destruct (0 <? _)%nat; [intros [= <- <-]; auto | discriminate].
Qed.

(** X9.  Through the routers, a user who is neither pharmacist nor admin
    cannot verify or reprocess: both routes answer with an error (403, or
    400 when the identifier is malformed) and change nothing. *)
Theorem only_staff_verify_or_reprocess
    (LocalTZA : Z -> bool -> Z) (recognize : string -> outcome (string * Q))
    (ctx : Context) (user : User.t) (id : string) (body : VerifyBody) (w : World)
    (Hnot_pharmacist : User.role user <> "pharmacist")
    (Hnot_admin : User.role user <> "admin") :
  exists e1 e2,
    Access.verifyRoute LocalTZA ctx user id body w = (Next e1, w)
    /\ Access.reprocessRoute LocalTZA recognize ctx user id w = (Next e2, w)
    /\ (statusCode e1 = 403 \/ statusCode e1 = 400)%Z
    /\ (statusCode e2 = 403 \/ statusCode e2 = 400)%Z.
Proof.
  unfold Access.verifyRoute, Access.reprocessRoute, Access.validateObjectId,
    Access.authorize.
  destruct (Access.isMongoId id); [|eexists _, _; repeat split; auto].
  cbn [existsb].
  apply String.eqb_neq in Hnot_pharmacist, Hnot_admin.
  rewrite Hnot_pharmacist, Hnot_admin. cbn.
  eexists _, _. repeat split; auto.
Qed.

Lemma only_staff_verify_or_reprocess_witness :
  exists e1 e2,
    Access.verifyRoute Sample.utc Sample.ctx Sample.patientUser Access.Sample.rxId
      (mkVerifyBody true None None) Access.Sample.world = (Next e1, Access.Sample.world)
    /\ Access.reprocessRoute Sample.utc Sample.engine Sample.ctx Sample.patientUser
         Access.Sample.rxId Access.Sample.world = (Next e2, Access.Sample.world)
    /\ (statusCode e1 = 403 \/ statusCode e1 = 400)%Z
    /\ (statusCode e2 = 403 \/ statusCode e2 = 400)%Z.
Proof.
  apply only_staff_verify_or_reprocess; discriminate.
Defined.

(** X10.  The owner of a record that no order refers to can delete it,
    whatever its status, verified included: the record is gone and every
    other record is untouched. *)
Theorem owner_deletes_unlinked_record
    (user : User.t) (id : string) (w : World) (p : Prescription)
    (Hkeys : Access.keyedById w)
    (Hfound : prescriptions w !! id = Some p)
    (Howner : patient p = User.id user)
    (Hunlinked : PrescriptionModel.orders p = []) :
  exists w',
    Access.deletePrescription user id w
    = (Json 200 "Prescription deleted successfully", w')
    /\ prescriptions w' !! id = None
    /\ (forall other, other <> id -> prescriptions w' !! other = prescriptions w !! other)
    /\ products w' = products w /\ orders w' = orders w.
Proof.
  unfold Access.deletePrescription. rewrite Hfound, Howner, Hunlinked.
  rewrite String.eqb_refl. cbn [negb length Nat.ltb Nat.leb].
  rewrite (Hkeys id p Hfound).
  eexists. split; [reflexivity|]. cbn. split; [apply lookup_delete_eq|].
  split; [|split; reflexivity].
  intros other Hne. apply lookup_delete_ne. congruence.
Qed.

Lemma owner_deletes_unlinked_record_witness :
  exists w',
    Access.deletePrescription Sample.patientUser "rx-1" Sample.world
    = (Json 200 "Prescription deleted successfully", w')
    /\ prescriptions w' !! "rx-1" = None
    /\ (forall other, other <> "rx-1" ->
                      prescriptions w' !! other = prescriptions Sample.world !! other)
    /\ products w' = products Sample.world /\ orders w' = orders Sample.world.
Proof.
  apply (owner_deletes_unlinked_record Sample.patientUser "rx-1" Sample.world
           Sample.approved).
  - intros id p H. unfold Sample.world in H. cbn in H.
    apply lookup_singleton_Some in H as [<- <-]. reflexivity.
  - vm_compute. reflexivity.
  - reflexivity.
  - reflexivity.
Defined.

End GuardFacts.

(* ===================================================================== *)
(** * Further properties of orders and stock *)
(* ===================================================================== *)

Section StockFacts.
Import JS PrescriptionModel Controllers OrderLifecycle.
Local Open Scope Z_scope.

Lemma reserve_zero (p : Product.t) : Product.reserve 0 p = p.
Proof. destruct p. unfold Product.reserve. cbn. f_equal. lia. Qed.

Lemma reserve_reserve (a b : Z) (p : Product.t) :
  Product.reserve a (Product.reserve b p) = Product.reserve (b + a) p.
Proof. destruct p. unfold Product.reserve. cbn. f_equal. lia. Qed.


(** A loop that runs to its end: the reservations made, the lines written
    and the checks every item passed. *)
Lemma itemLoop_success supplied (its : list Item.t) :
  forall subtotal orderItems catalogue catalogue' total lines,
    itemLoop supplied its subtotal orderItems catalogue = (catalogue', inr (total, lines)) ->
    (forall id, catalogue' !! id
                = Product.reserve (unitsOf id (itemPairs its)) <$> catalogue !! id)
    /\ linePairs lines = linePairs orderItems ++ itemPairs its
    /\ (forall item, In item its ->
          exists product,
            catalogue !! Item.product item = Some product
            /\ Product.isActive product = true
            /\ Item.quantity item <= Product.quantity product).
Proof.
  induction its as [|it rest IH];
    intros subtotal orderItems catalogue catalogue' total lines Hloop.
  - cbn in Hloop. injection Hloop as <- _ <-. split; [|split].
    + intros id. cbn. destruct (catalogue !! id) as [p|]; cbn; [|reflexivity].
      now rewrite reserve_zero.
    + cbn. now rewrite app_nil_r.
    + intros item [].
  - cbn [itemLoop] in Hloop.
    destruct (catalogue !! Item.product it) as [found|] eqn:Ef; [|discriminate].
    destruct (negb (Product.isActive found)) eqn:Ea; [discriminate|].
    destruct (Product.quantity found <? Item.quantity it) eqn:Eq; [discriminate|].
    destruct (Product.prescriptionRequired found && _); [discriminate|].
    apply IH in Hloop as (Hres & Hlines & Hchecks). clear IH.
    apply negb_false_iff in Ea. apply Z.ltb_ge in Eq.
    split; [|split].
    + intros id. rewrite Hres. cbn [itemPairs map unitsOf].
      destruct (decide (Item.product it = id)) as [<-|Hne].
      * rewrite lookup_insert_eq, Ef, String.eqb_refl. cbn.
        now rewrite reserve_reserve.
      * rewrite lookup_insert_ne by exact Hne.
        apply String.eqb_neq in Hne. rewrite Hne, Z.add_0_l. reflexivity.
    + rewrite Hlines. unfold linePairs. rewrite map_app, <- app_assoc. reflexivity.
    + intros item [<-|Hin]; [eauto|].
      destruct (Hchecks item Hin) as (product & Hl & Hact & Hq).
      destruct (decide (Item.product it = Item.product item)) as [Heq|Hne].
      * rewrite <- Heq, lookup_insert_eq in Hl. injection Hl as <-.
        exists found. rewrite <- Heq. auto.
      * rewrite lookup_insert_ne in Hl by exact Hne. eauto.
Qed.




End StockFacts.

Section OrderFacts.
Import JS PrescriptionModel Controllers OrderLifecycle.
Local Open Scope Z_scope.

(** What an accepted order leaves behind. *)
Lemma createOrder_created user body w order w' :
  createOrder user body w = (Json 201 order, w') ->
  exists its catalogue' total,
    items body = Some its
    /\ itemLoop (prescriptions_supplied body) its 0%Q [] (products w)
       = (catalogue', inr (total, Order.items order))
    /\ products w' = catalogue'
    /\ orders w' = orders w ++ [order]
    /\ carts w' = alter (fun _ => []) (User.id user) (carts w)
    /\ outbox w' = outbox w ++ [Email.mk (User.email user)
                                  "Order Confirmation - MedCare" "orderConfirmation"]
    /\ Controllers.prescriptions w' = Controllers.prescriptions w
    /\ Order.customer order = User.id user
    /\ Order.status order = "pending"
    /\ Order.prescriptions order
       = match prescriptions_supplied body with
         | Some ps => map _id ps
         | None => []
         end.
Proof.
  unfold createOrder.
  destruct (items body) as [[|it rest]|]; [discriminate| |discriminate].
  destruct (shippingAddress body) as [shipTo|]; [|discriminate].
  destruct (itemLoop (prescriptions_supplied body) (it :: rest) 0%Q [] (products w))
    as [catalogue' [err|[total lines]]] eqn:E; [discriminate|].
  intros [= <- <-]. exists (it :: rest), catalogue', total.
  cbn. repeat split. exact E.
Qed.

(** X11.  An accepted order is appended to the orders with status
    "pending" and the caller as customer; it has one line per cart item, in
    order, with the item's product and quantity; the caller's cart is
    emptied and no other cart is touched; one confirmation mail goes to the
    caller. *)
Theorem accepted_order_mirrors_cart user body w order w'
    (Hcreated : createOrder user body w = (Json 201 order, w')) :
  exists its,
    items body = Some its
    /\ orders w' = orders w ++ [order]
    /\ Order.customer order = User.id user
    /\ Order.status order = "pending"
    /\ linePairs (Order.items order) = itemPairs its
    /\ carts w' !! User.id user = (fun _ => []) <$> carts w !! User.id user
    /\ (forall other, other <> User.id user -> carts w' !! other = carts w !! other)
    /\ outbox w' = outbox w ++ [Email.mk (User.email user)
                                  "Order Confirmation - MedCare" "orderConfirmation"].
Proof.
  apply createOrder_created in Hcreated
    as (its & c' & total & Hi & Hl & _ & Ho & Hc & Hm & _ & Hcu & Hst & _).
  apply itemLoop_success in Hl as (_ & Hlines & _).
  exists its. rewrite Hc. repeat split; try assumption.
  - apply lookup_alter_eq.
  - intros other Hne. apply lookup_alter_ne. congruence.
Qed.


(** X13.  An order is accepted only if every item names an active product
    of the catalogue whose stock quantity is at least the quantity of that
    item.  The test looks at each line on its own and at [stock.quantity],
    not at what is already reserved. *)
Theorem accepted_order_passed_stock_check user body w order w'
    (Hcreated : createOrder user body w = (Json 201 order, w')) :
  exists its,
    items body = Some its
    /\ forall item, In item its ->
         exists product,
           products w !! Item.product item = Some product
           /\ Product.isActive product = true
           /\ Item.quantity item <= Product.quantity product.
Proof.
  apply createOrder_created in Hcreated
    as (its & c' & total & Hi & Hl & _).
  apply itemLoop_success in Hl as (_ & _ & Hchecks).
  exists its. split; assumption.
Qed.

End OrderFacts.

Section OrderWitnesses.
Import JS PrescriptionModel Controllers OrderLifecycle.
Local Open Scope Z_scope.

Lemma sample_order_created :
  let r := createOrder Sample.patientUser (Sample.order (Some [Sample.approved]))
             Sample.world in
  r = (Json 201 (match fst r with
                 | Json _ o => o
                 | Next _ => OrderLifecycle.order OrderLifecycle.Sample.placed
                 end), snd r).
Proof. vm_compute. reflexivity. Defined.

Lemma accepted_order_mirrors_cart_witness :
  exists its,
    items (Sample.order (Some [Sample.approved])) = Some its
    /\ orders (snd (createOrder Sample.patientUser (Sample.order (Some [Sample.approved]))
                      Sample.world))
       = orders Sample.world
         ++ [match fst (createOrder Sample.patientUser
                          (Sample.order (Some [Sample.approved])) Sample.world) with
             | Json _ o => o
             | Next _ => OrderLifecycle.order OrderLifecycle.Sample.placed
             end]
    /\ Order.customer
         (match fst (createOrder Sample.patientUser
                       (Sample.order (Some [Sample.approved])) Sample.world) with
          | Json _ o => o
          | Next _ => OrderLifecycle.order OrderLifecycle.Sample.placed
          end) = User.id Sample.patientUser.
Proof.
  destruct (accepted_order_mirrors_cart _ _ _ _ _ sample_order_created)
    as (its & Hi & Ho & Hc & _).
  exists its. split; [exact Hi | split; [exact Ho | exact Hc]].
Defined.


Lemma accepted_order_passed_stock_check_witness :
  exists its,
    items (Sample.order (Some [Sample.approved])) = Some its
    /\ forall item, In item its ->
         exists product,
           products Sample.world !! Item.product item = Some product
           /\ Product.isActive product = true
           /\ Item.quantity item <= Product.quantity product.
Proof.
  exact (accepted_order_passed_stock_check _ _ _ _ _ sample_order_created).
Defined.

End OrderWitnesses.

Section GateFacts.
Import JS PrescriptionModel Controllers OrderLifecycle.

Lemma find_covers_map (f : Prescription -> Prescription) productName ps :
  (forall p, medications (f p) = medications p) ->
  present (List.find (covers productName) (map f ps))
  = present (List.find (covers productName) ps).
Proof.
  intros Hm. induction ps as [|p ps IH]; [reflexivity|].
  cbn [map List.find]. unfold covers at 1 3. rewrite Hm.
  destruct (existsb _ (medications p)); [reflexivity | exact IH].
Qed.

Lemma itemLoop_map (f : Prescription -> Prescription) ps its :
  (forall p, medications (f p) = medications p) ->
  forall subtotal orderItems catalogue,
    itemLoop (Some (map f ps)) its subtotal orderItems catalogue
    = itemLoop (Some ps) its subtotal orderItems catalogue.
Proof.
  intros Hm. induction its as [|it rest IH]; intros subtotal orderItems catalogue;
    [reflexivity|].
  cbn [itemLoop validPrescription].
  destruct (catalogue !! Item.product it) as [found|]; [|reflexivity].
  rewrite (find_covers_map f _ ps Hm), IH. reflexivity.
Qed.

(** X14.  Order creation reads the identifier and the medication names of
    the supplied prescriptions and nothing else: supplying them with any
    other status, verification, dates or owner gives the same answer and
    the same state.  A rejected or unverified prescription opens the gate
    as a verified one does. *)
Theorem gate_reads_names_only
    (f : Prescription -> Prescription)
    (Hid : forall p, _id (f p) = _id p)
    (Hmeds : forall p, medications (f p) = medications p)
    (user : User.t) (its : option (list Item.t)) (shipTo billTo : option Address.t)
    (pay coupon notes : option string) (ps : list Prescription) (w : World) :
  createOrder user (mkOrderBody its shipTo billTo pay coupon notes (Some (map f ps))) w
  = createOrder user (mkOrderBody its shipTo billTo pay coupon notes (Some ps)) w.
Proof.
  unfold createOrder. cbn [items shippingAddress billingAddress paymentMethod
                            customerNotes prescriptions_supplied].
  destruct its as [[|it rest]|]; try reflexivity.
  destruct shipTo as [a|]; [|reflexivity].
  rewrite (itemLoop_map f ps (it :: rest) Hmeds).
  destruct (itemLoop (Some ps) (it :: rest) 0%Q [] (products w))
    as [c [err|[total lines]]]; [reflexivity|].
  rewrite map_map. rewrite (map_ext _ _ Hid). reflexivity.
Qed.

Lemma gate_reads_names_only_witness :
  createOrder Sample.patientUser
    (mkOrderBody (Some [Item.mk "p-vitc" 2 None; Item.mk "p-amox" 1 (Some "rx-1")])
       (Some Sample.home) None (Some "card") None None
       (Some (map (setStatus rejected) [Sample.approved]))) Sample.world
  = createOrder Sample.patientUser
      (mkOrderBody (Some [Item.mk "p-vitc" 2 None; Item.mk "p-amox" 1 (Some "rx-1")])
         (Some Sample.home) None (Some "card") None None
         (Some [Sample.approved])) Sample.world.
Proof.
  apply (gate_reads_names_only (setStatus rejected)); intros p; reflexivity.
Defined.

End GateFacts.

Section CancelFacts.
Import JS JSDate PrescriptionModel Controllers OrderLifecycle.
Local Open Scope Z_scope.



Lemma sample_catalogue_reserved :
  reservedNonNegative (products Sample.world).
Proof.
  intros id p H. unfold Sample.world in H. cbn [products] in H.
  apply lookup_insert_Some in H as [[_ <-]|[_ H]]; [cbn; lia|].
  apply lookup_singleton_Some in H as [_ <-]. cbn. lia.
Defined.


(** X16.  An order cancelled once cannot be cancelled again: the second
    request gets "Order cannot be cancelled at this stage" (400), and
    neither the order nor the catalogue changes, so stock is released
    once only. *)
Theorem second_cancel_is_refused
    (now now' : Date) (user : User.t) (id : string) (reason reason' : option string)
    (shop shop' : Shop) (doc' : OrderDoc)
    (Hcancelled : cancelOrder now user id reason shop = (Json 200 doc', shop')) :
  cancelOrder now' user id reason' shop'
  = (Next (mkAppError "Order cannot be cancelled at this stage" 400), shop').
Proof.
  unfold cancelOrder in Hcancelled.
  destruct (orderDocs shop !! id) as [doc|]; [|discriminate].
  destruct (negb (String.eqb (Order.customer (order doc)) (User.id user))) eqn:Ec;
    [discriminate|].
  destruct (negb (existsb _ cancellableStatuses)); [discriminate|].
  injection Hcancelled as <- <-.
  unfold cancelOrder. cbn [orderDocs]. rewrite lookup_insert_eq.
  cbn [order setOrderStatus Order.customer Order.status]. rewrite Ec.
  reflexivity.
Qed.

Lemma second_cancel_is_refused_witness :
  cancelOrder (TimeValue 1700000100000) Sample.patientUser "o-1" (Some "again")
    (snd (cancelOrder (TimeValue 1700000000000) Sample.patientUser "o-1" None
            OrderLifecycle.Sample.shop))
  = (Next (mkAppError "Order cannot be cancelled at this stage" 400),
     snd (cancelOrder (TimeValue 1700000000000) Sample.patientUser "o-1" None
            OrderLifecycle.Sample.shop)).
Proof.
  apply (second_cancel_is_refused (TimeValue 1700000000000) (TimeValue 1700000100000)
           Sample.patientUser "o-1" None (Some "again") OrderLifecycle.Sample.shop
           (snd (cancelOrder (TimeValue 1700000000000) Sample.patientUser "o-1" None
                   OrderLifecycle.Sample.shop))
           (match fst (cancelOrder (TimeValue 1700000000000) Sample.patientUser "o-1" None
                         OrderLifecycle.Sample.shop) with
            | Json _ d => d
            | Next _ => OrderLifecycle.Sample.placed
            end)).
  vm_compute. reflexivity.
Defined.

(** The stock loops never leave a negative reserved stock behind. *)
Lemma stockLoop_reserved change (lines : list OrderItem.t) :
  (forall n p, 0 <= Product.reserved (change n p)) ->
  forall catalogue,
    reservedNonNegative catalogue ->
    reservedNonNegative (stockLoop change lines catalogue).
Proof.
  intros Hchange. induction lines as [|l rest IH]; intros catalogue Hc; [exact Hc|].
  cbn [stockLoop]. destruct (catalogue !! OrderItem.product l) as [found|]; [|auto].
  apply IH. intros id p H.
  apply lookup_insert_Some in H as [[_ <-]|[_ H]]; [apply Hchange | eauto].
Qed.

(** X17.  Reserved stock never becomes negative: creating an order whose
    quantities are not negative, releasing stock on cancellation and
    deducting stock on confirmation all keep every product's reserved
    stock at zero or above. *)
Theorem reserved_stock_stays_non_negative
    (catalogue : gmap string Product.t)
    (Hreserved : reservedNonNegative catalogue) :
  (forall lines, reservedNonNegative (releaseStock lines catalogue))
  /\ (forall lines, reservedNonNegative (confirmStock lines catalogue))
  /\ (forall supplied its catalogue' total lines,
         (forall item, In item its -> 0 <= Item.quantity item) ->
         itemLoop supplied its 0%Q [] catalogue = (catalogue', inr (total, lines)) ->
         reservedNonNegative catalogue').
Proof.
  split; [|split].
  - intros lines. apply stockLoop_reserved; [|exact Hreserved].
    intros n p. unfold release. cbn. lia.
  - intros lines. apply stockLoop_reserved; [|exact Hreserved].
    intros n p. unfold deduct. cbn. lia.
  - intros supplied its c' total lines Hq Hloop id p H.
    apply itemLoop_success in Hloop as (Hc & Hlines & _). rewrite Hc in H.
    destruct (catalogue !! id) as [p0|] eqn:E0; cbn in H; [|discriminate].
    injection H as <-. cbn. specialize (Hreserved _ _ E0).
    assert (0 <= unitsOf id (itemPairs its)); [|lia].
    clear - Hq. induction its as [|it rest IH]; cbn; [lia|].
    assert (0 <= Item.quantity it) by (apply Hq; cbn; auto).
    assert (0 <= unitsOf id (itemPairs rest))
      by (apply IH; intros x Hx; apply Hq; cbn; auto).
    fold (itemPairs rest). destruct (String.eqb (Item.product it) id); lia.
Qed.

Lemma reserved_stock_stays_non_negative_witness :
  (forall lines, reservedNonNegative (releaseStock lines (products Sample.world)))
  /\ (forall lines, reservedNonNegative (confirmStock lines (products Sample.world)))
  /\ (forall supplied its catalogue' total lines,
         (forall item, In item its -> 0 <= Item.quantity item) ->
         itemLoop supplied its 0%Q [] (products Sample.world)
         = (catalogue', inr (total, lines)) ->
         reservedNonNegative catalogue').
Proof.
  exact (reserved_stock_stays_non_negative (products Sample.world)
           sample_catalogue_reserved).
Defined.

End CancelFacts.

Section TrimFacts.
Import JS.

Lemma trimStart_idem (s : string) : trimStart (trimStart s) = trimStart s.
Proof.
  induction s as [|c s IH]; [reflexivity|]. cbn [trimStart].
  destruct (isWhiteSpace c) eqn:E; [exact IH|]. cbn [trimStart]. now rewrite E.
Qed.

Lemma trimStart_starts (s : string) : startsWithWhiteSpace (trimStart s) = false.
Proof.
  induction s as [|c s IH]; [reflexivity|]. cbn [trimStart].
  destruct (isWhiteSpace c) eqn:E; [exact IH|]. cbn. exact E.
Qed.

Lemma trimStart_fixed (s : string) :
  startsWithWhiteSpace s = false -> trimStart s = s.
Proof. destruct s as [|c s]; [reflexivity|]. cbn. now intros ->. Qed.

Lemma trimEnd_starts (s : string) :
  startsWithWhiteSpace s = false -> startsWithWhiteSpace (trimEnd s) = false.
Proof.
  destruct s as [|c s]; [reflexivity|]. cbn [startsWithWhiteSpace trimEnd].
  intros E. destruct (trimEnd s); [rewrite E|]; cbn; exact E.
Qed.

Lemma trimEnd_cons (c : ascii) (s : string) :
  trimEnd (String c s)
  = match trimEnd s with
    | EmptyString => if isWhiteSpace c then EmptyString else String c EmptyString
    | String a b => String c (String a b)
    end.
Proof. reflexivity. Qed.

Lemma trimEnd_idem (s : string) : trimEnd (trimEnd s) = trimEnd s.
Proof.
  induction s as [|c s IH]; [reflexivity|]. rewrite trimEnd_cons.
  destruct (trimEnd s) as [|d t] eqn:E.
  - destruct (isWhiteSpace c) eqn:Ec; [reflexivity|].
    rewrite trimEnd_cons. cbn [trimEnd]. now rewrite Ec.
  - rewrite trimEnd_cons, IH. reflexivity.
Qed.

(** [trim] is idempotent: a trimmed string has nothing left to trim. *)
Lemma trim_idem (s : string) : trim (trim s) = trim s.
Proof.
  unfold trim.
  rewrite (trimStart_fixed (trimEnd (trimStart s))).
  - apply trimEnd_idem.
  - apply trimEnd_starts, trimStart_starts.
Qed.

Lemma star_whitespace (s : string) (c : captures) :
  star isWhiteSpace s c (fun s' c' => Some (s', c')) = Some (trimStart s, c).
Proof.
  induction s as [|x s IH]; [reflexivity|]. cbn [star trimStart].
  destruct (isWhiteSpace x); [now rewrite IH | reflexivity].
Qed.

(** Greedy [[^:]*] stops at the first colon when the rest of the pattern
    matches there. *)
Lemma star_label {R} (label rest : string) c (k : string -> captures -> option R) :
  includes label ":" = false ->
  is_Some (k (String ":"%char rest) c) ->
  star (notChr ":"%char) (label +:+ String ":"%char rest) c k
  = k (String ":"%char rest) c.
Proof.
  intros Hno [r Hr]. induction label as [|y label IH].
  - cbn. reflexivity.
  - rewrite includes_cons in Hno. apply orb_false_iff in Hno as [Hp Hrest].
    assert (Hy : notChr ":"%char y = true).
    { unfold notChr. destruct (Ascii.eqb y ":"%char) eqn:Ey; [|reflexivity].
      apply Ascii.eqb_eq in Ey. subst y. cbn in Hp. now destruct label. }
    change (String y label +:+ String ":"%char rest)
      with (String y (label +:+ String ":"%char rest)).
    cbn [star]. rewrite Hy, (IH Hrest), Hr. reflexivity.
Qed.

(** On a line "label:value" whose label has no colon the label pattern
    removes the label, the colon and the white space after it. *)
Lemma stripLabel_with_colon (label value : string) :
  includes label ":" = false ->
  OcrProcessor.stripLabel (label +:+ String ":"%char value) = trim value.
Proof.
  intros Hno. unfold OcrProcessor.stripLabel, replaceEmpty, exec.
  assert (E : matchAt OcrProcessor.labelPrefix
                (String.length (label +:+ String ":"%char value))
                (label +:+ String ":"%char value)
              = Some (trimStart value, noCaptures)).
  { unfold matchAt, OcrProcessor.labelPrefix. cbn [rmatch].
    rewrite Nat.eqb_refl.
    rewrite star_label; [| exact Hno |].
    - unfold chr. cbn [rmatch]. rewrite Ascii.eqb_refl. cbn [rmatch].
      now rewrite star_whitespace.
    - unfold chr. cbn [rmatch]. rewrite Ascii.eqb_refl.
      rewrite star_whitespace. eauto. }
  rewrite (execFrom_here _ _ _ _ _ _ E). cbn [before after].
  change (EmptyString +:+ trimStart value) with (trimStart value).
  unfold trim. now rewrite trimStart_idem.
Qed.

End TrimFacts.

Section FieldFacts.
Import JS.

(** X18.  A line of the form "label:value", whose label has no colon and
    which mentions a keyword of the field, gives the field the value after
    the first colon with the surrounding white space removed; later lines
    are not looked at.  Both parsers agree on it. *)
Theorem labelled_line_gives_value
    (keywords : list string) (label value : string) (rest : list string)
    (Hlabel : includes label ":" = false)
    (Hmentions : OcrProcessor.mentions keywords (label +:+ String ":"%char value) = true) :
  OcrProcessor.extractField ((label +:+ String ":"%char value) :: rest) keywords
  = Some (trim value)
  /\ PrescriptionUpload.extractField ((label +:+ String ":"%char value) :: rest) keywords
     = trim value.
Proof.
  cbn [OcrProcessor.extractField PrescriptionUpload.extractField].
  change (PrescriptionUpload.mentions keywords (label +:+ String ":"%char value))
    with (OcrProcessor.mentions keywords (label +:+ String ":"%char value)).
  rewrite Hmentions.
  change (PrescriptionUpload.stripLabel (label +:+ String ":"%char value))
    with (OcrProcessor.stripLabel (label +:+ String ":"%char value)).
  rewrite (stripLabel_with_colon label value Hlabel). split; reflexivity.
Qed.

Lemma labelled_line_gives_value_witness :
  OcrProcessor.extractField
    (("Date" +:+ String ":"%char "  12 May, 10:30 ") :: ["Dated: never"])
    ["date"; "dated"]
  = Some (trim "  12 May, 10:30 ")
  /\ PrescriptionUpload.extractField
       (("Date" +:+ String ":"%char "  12 May, 10:30 ") :: ["Dated: never"])
       ["date"; "dated"]
     = trim "  12 May, 10:30 ".
Proof.
  apply (labelled_line_gives_value ["date"; "dated"] "Date" "  12 May, 10:30 ");
    reflexivity.
Defined.

Lemma extractField_trimmed (lines keywords : list string) :
  match OcrProcessor.extractField lines keywords with
  | Some v => trim v = v
  | None => True
  end.
Proof.
  induction lines as [|line rest IH]; cbn [OcrProcessor.extractField]; [exact I|].
  destruct (OcrProcessor.mentions keywords line); [|exact IH].
  unfold OcrProcessor.stripLabel. apply trim_idem.
Qed.

Lemma page_extractField_trimmed (lines keywords : list string) :
  trim (PrescriptionUpload.extractField lines keywords)
  = PrescriptionUpload.extractField lines keywords.
Proof.
  induction lines as [|line rest IH]; cbn [PrescriptionUpload.extractField];
    [reflexivity|].
  destruct (PrescriptionUpload.mentions keywords line); [|exact IH].
  unfold PrescriptionUpload.stripLabel. apply trim_idem.
Qed.

(** X19.  No value the parsers return carries white space at either end:
    every field the backend parser finds, and every field and every
    medication line of the upload page, is left unchanged by [trim]. *)
Theorem parsed_values_are_trimmed (text : string) :
  (forall data f v,
      OcrProcessor.extractPrescriptionData text = Returned data ->
      OcrProcessor.fieldOf f data = Some v -> trim v = v)
  /\ (forall f,
         trim (PrescriptionUpload.fieldOf f (PrescriptionUpload.parsePrescriptionText text))
         = PrescriptionUpload.fieldOf f (PrescriptionUpload.parsePrescriptionText text))
  /\ Forall (fun m => trim m = m)
       (PrescriptionUpload.medications (PrescriptionUpload.parsePrescriptionText text)).
Proof.
  split; [|split].
  - intros data f v Hdata Hf. unfold OcrProcessor.extractPrescriptionData in Hdata.
    destruct (OcrProcessor.extractMedications (OcrProcessor.nonBlankLines text))
      as [meds|e]; cbn [bind] in Hdata; [|discriminate].
    injection Hdata as <-.
    destruct f; cbn in Hf;
      match type of Hf with
      | OcrProcessor.extractField ?l ?k = _ =>
          pose proof (extractField_trimmed l k) as Ht; rewrite Hf in Ht; exact Ht
      end.
  - intros []; cbn [PrescriptionUpload.fieldOf PrescriptionUpload.parsePrescriptionText
                    PrescriptionUpload.doctorName PrescriptionUpload.patientName
                    PrescriptionUpload.date PrescriptionUpload.diagnosis
                    PrescriptionUpload.instructions];
      apply page_extractField_trimmed.
  - cbn [PrescriptionUpload.parsePrescriptionText PrescriptionUpload.medications].
    unfold PrescriptionUpload.extractMedications.
    rewrite page_medicationLoop_filter. cbn [app].
    destruct (0 <? length _)%nat.
    + apply List.Forall_forall. intros m Hm. apply in_map_iff in Hm as (line & <- & _).
      apply trim_idem.
    + constructor; [reflexivity | constructor].
Qed.

Lemma medicationLoop_named (lines : list string) : forall acc meds,
  OcrProcessor.medicationLoop lines acc = Returned meds ->
  Forall (fun m => truthy (OcrProcessor.name m) = true) acc ->
  Forall (fun m => truthy (OcrProcessor.name m) = true) meds
  /\ (length meds <= length acc + length lines)%nat.
Proof.
  induction lines as [|line rest IH]; intros acc meds H Hacc;
    cbn [OcrProcessor.medicationLoop] in H.
  - injection H as <-. split; [exact Hacc | cbn; lia].
  - cbn [length].
    destruct (OcrProcessor.mentions OcrProcessor.medicationKeywords line).
    + destruct (OcrProcessor.medicationOf line) as [m|e]; cbn [bind] in H;
        [|discriminate].
      destruct (truthy (OcrProcessor.name m)) eqn:En.
      * apply IH in H as [H1 H2].
        -- split; [exact H1|]. rewrite length_app in H2. cbn in H2. lia.
        -- apply Forall_app. split; [exact Hacc|]. constructor; [exact En | constructor].
      * apply IH in H as [H1 H2]; [|exact Hacc]. split; [exact H1 | lia].
    + apply IH in H as [H1 H2]; [|exact Hacc]. split; [exact H1 | lia].
Qed.

(** X20.  The backend parser returns for every text, every medication in
    its result has a non-empty name, and there are at most as many
    medications as non-blank lines. *)
Theorem backend_medications_are_named (text : string) :
  exists data,
    OcrProcessor.extractPrescriptionData text = Returned data
    /\ Forall (fun m => OcrProcessor.name m <> EmptyString) (OcrProcessor.medications data)
    /\ (length (OcrProcessor.medications data)
        <= length (OcrProcessor.nonBlankLines text))%nat.
Proof.
  unfold OcrProcessor.extractPrescriptionData, OcrProcessor.extractMedications.
  destruct (medicationLoop_returns (OcrProcessor.nonBlankLines text) []) as [meds Hm].
  rewrite Hm. cbn [bind]. eexists. split; [reflexivity|].
  cbn [OcrProcessor.medications].
  apply medicationLoop_named in Hm as [H1 H2]; [|constructor].
  split; [|exact H2].
  eapply Forall_impl; [exact H1|]. intros m Hn. cbn in Hn.
  destruct (OcrProcessor.name m); [discriminate | discriminate].
Qed.

End FieldFacts.

Section PageFacts.
Import JS PrescriptionUpload.

Lemma split_nonempty (sep : ascii) (s : string) : split sep s <> [].
Proof.
  destruct s as [|c s]; cbn [split]; [discriminate|].
  destruct (Ascii.eqb c sep); [discriminate|].
  destruct (split sep s); discriminate.
Qed.

(** Splitting at a separator splits the two sides separately. *)
Lemma split_app (sep : ascii) (a b : string) :
  split sep (a +:+ String sep b) = split sep a ++ split sep b.
Proof.
  induction a as [|c a IH].
  - change (EmptyString +:+ String sep b) with (String sep b).
    cbn [split]. now rewrite Ascii.eqb_refl.
  - change (String c a +:+ String sep b) with (String c (a +:+ String sep b)).
    cbn [split]. rewrite IH.
    destruct (Ascii.eqb c sep); [reflexivity|].
    pose proof (split_nonempty sep a) as Hne.
    destruct (split sep a) as [|h t]; [contradiction|]. reflexivity.
Qed.

Lemma append_assoc (a b c : string) : (a +:+ b) +:+ c = a +:+ (b +:+ c).
Proof.
  induction a as [|x a IH]; [reflexivity|].
  change (String x a +:+ b) with (String x (a +:+ b)).
  change (String x (a +:+ b) +:+ c) with (String x ((a +:+ b) +:+ c)).
  change (String x a +:+ (b +:+ c)) with (String x (a +:+ (b +:+ c))).
  now rewrite IH.
Qed.

Lemma append_empty_r (a : string) : a +:+ EmptyString = a.
Proof.
  induction a as [|x a IH]; [reflexivity|].
  change (String x a +:+ EmptyString) with (String x (a +:+ EmptyString)).
  now rewrite IH.
Qed.

(** The text the loop of [processWithOCR] builds from the texts of the
    files: each followed by a blank line. *)
Lemma recognizeLoop_texts (recognize : string -> outcome string)
      (fs : list FileData) (texts : list string) :
  Forall2 (fun f t => recognize (file f) = Returned t) fs texts ->
  forall allText calls,
    recognizeLoop recognize fs allText calls
    = (calls ++ map file fs,
       Returned (allText +:+ fold_right (fun t rest => t +:+ blankLine +:+ rest)
                                        EmptyString texts)).
Proof.
  induction 1 as [|f t fs texts Hf _ IH]; intros allText calls;
    cbn [recognizeLoop map fold_right].
  - now rewrite app_nil_r, append_empty_r.
  - rewrite Hf, IH, <- app_assoc. cbn [app].
    now rewrite !append_assoc.
Qed.

(** A blank line between two texts keeps their lines apart. *)
Lemma nonBlankLines_blankLine (t rest : string) :
  nonBlankLines (t +:+ blankLine +:+ rest) = nonBlankLines t ++ nonBlankLines rest.
Proof.
  unfold nonBlankLines.
  change (blankLine +:+ rest) with (String "010"%char (String "010"%char rest)).
  rewrite split_app, List.filter_app. f_equal.
Qed.

Lemma nonBlankLines_texts (texts : list string) :
  nonBlankLines (fold_right (fun t rest => t +:+ blankLine +:+ rest) EmptyString texts)
  = concat (map nonBlankLines texts).
Proof.
  induction texts as [|t texts IH]; [reflexivity|].
  cbn [fold_right map concat]. now rewrite nonBlankLines_blankLine, IH.
Qed.

(** X21.  When the worker reads every selected file, the page parses the
    files as one prescription whose lines are the non-blank lines of the
    first file, then those of the second, and so on: a field is decided by
    the first file that mentions it, the medication list runs over all
    files in order, and the page moves to step 2. *)
Theorem page_reads_files_in_order
    (recognize : string -> outcome string) (st : State) (texts : list string)
    (Hfiles : files st <> [])
    (Hread : Forall2 (fun f t => recognize (file f) = Returned t) (files st) texts) :
  exists allText,
    fst (processWithOCR recognize true st)
    = mkState (files st) false allText (Some (parsePrescriptionText allText)) 2
    /\ nonBlankLines allText = concat (map nonBlankLines texts)
    /\ (forall f, fieldOf f (parsePrescriptionText allText)
                  = extractField (concat (map nonBlankLines texts)) (fieldKeywords f))
    /\ medications (parsePrescriptionText allText)
       = extractMedications (concat (map nonBlankLines texts)).
Proof.
  unfold processWithOCR.
  destruct (files st) as [|f0 fs] eqn:Ef; [contradiction|].
  cbn [length Nat.eqb negb].
  rewrite (recognizeLoop_texts recognize _ _ Hread).
  change (EmptyString +:+ ?x) with x.
  eexists. split; [reflexivity|]. cbn [fst].
  pose proof (nonBlankLines_texts texts) as Hlines.
  split; [exact Hlines|]. split.
  - intros []; cbn [fieldOf parsePrescriptionText doctorName patientName date
                    diagnosis instructions fieldKeywords];
      now rewrite Hlines.
  - cbn [parsePrescriptionText medications]. now rewrite Hlines.
Qed.

Lemma page_reads_files_in_order_witness :
  exists allText,
    fst (processWithOCR PageSample.reads true Controllers.Sample.page)
    = mkState (files Controllers.Sample.page) false allText
              (Some (parsePrescriptionText allText)) 2
    /\ nonBlankLines allText
       = concat (map nonBlankLines
                   ["Dr: Rao" +:+ PageSample.newline +:+ "Paracetamol 500mg";
                    "Doctor: Mehta" +:+ PageSample.newline +:+ "Cough syrup 5ml"])
    /\ (forall f, fieldOf f (parsePrescriptionText allText)
                  = extractField
                      (concat (map nonBlankLines
                         ["Dr: Rao" +:+ PageSample.newline +:+ "Paracetamol 500mg";
                          "Doctor: Mehta" +:+ PageSample.newline +:+ "Cough syrup 5ml"]))
                      (fieldKeywords f))
    /\ medications (parsePrescriptionText allText)
       = extractMedications
           (concat (map nonBlankLines
              ["Dr: Rao" +:+ PageSample.newline +:+ "Paracetamol 500mg";
               "Doctor: Mehta" +:+ PageSample.newline +:+ "Cough syrup 5ml"])).
Proof.
  apply (page_reads_files_in_order PageSample.reads Controllers.Sample.page).
  - discriminate.
  - repeat constructor.
Defined.

Lemma recognizeLoop_fails (recognize : string -> outcome string)
      (pre : list FileData) (f : FileData) (post : list FileData) (e : string) :
  Forall (fun g => exists t, recognize (file g) = Returned t) pre ->
  recognize (file f) = Thrown e ->
  forall allText calls,
    recognizeLoop recognize (pre ++ f :: post) allText calls
    = (calls ++ map file pre ++ [file f], Thrown e).
Proof.
  intros Hpre Hf. induction Hpre as [|g pre [t Hg] _ IH]; intros allText calls;
    cbn [app recognizeLoop map].
  - now rewrite Hf.
  - rewrite Hg, IH, <- app_assoc. reflexivity.
Qed.

(** X22.  When the worker fails on a file, the files after it are not
    read, the page stays on its step with the parsed data it had, the
    extracted text is empty, processing is switched off and the one toast
    is the failure message. *)
Theorem page_failure_keeps_previous_result
    (recognize : string -> outcome string) (st : State)
    (pre : list FileData) (f : FileData) (post : list FileData) (e : string)
    (Hfiles : files st = pre ++ f :: post)
    (Hpre : Forall (fun g => exists t, recognize (file g) = Returned t) pre)
    (Hf : recognize (file f) = Thrown e) :
  processWithOCR recognize true st
  = (mkState (files st) false EmptyString (prescriptionData st) (step st),
     mkEffects [ToastError "Failed to process prescription. Please try again."]
               (map file pre ++ [file f])).
Proof.
  unfold processWithOCR. rewrite Hfiles.
  replace (length (pre ++ f :: post) =? 0)%nat with false
    by (destruct pre; reflexivity).
  cbn [negb]. rewrite (recognizeLoop_fails recognize pre f post e Hpre Hf).
  reflexivity.
Qed.

Lemma page_failure_keeps_previous_result_witness :
  processWithOCR PageSample.crashes true Controllers.Sample.page
  = (mkState (files Controllers.Sample.page) false EmptyString
             (prescriptionData Controllers.Sample.page) (step Controllers.Sample.page),
     mkEffects [ToastError "Failed to process prescription. Please try again."]
               (map file [mkFileData "blob:a" "a.png" 1000]
                ++ [file (mkFileData "blob:b" "b.png" 1000)])).
Proof.
  apply (page_failure_keeps_previous_result PageSample.crashes Controllers.Sample.page
           [mkFileData "blob:a" "a.png" 1000] (mkFileData "blob:b" "b.png" 1000) []
           "worker crashed").
  - reflexivity.
  - constructor; [exists "Dr: Rao"; reflexivity | constructor].
  - reflexivity.
Defined.

End PageFacts.

Section OcrResultFacts.
Import JS OcrProcessor.

(** [Math.round] gives the nearest integer, halves upwards. *)
Lemma round_nearest (q : Q) :
  (q - (1 # 2) < inject_Z (round q) /\ inject_Z (round q) <= q + (1 # 2))%Q.
Proof.
  unfold round.
  pose proof (Qfloor_le (q + (1 # 2))) as Hle.
  pose proof (Qlt_floor (q + (1 # 2))) as Hlt.
  rewrite inject_Z_plus in Hlt. change (inject_Z 1) with 1%Q in Hlt.
  split; lra.
Qed.

(** X23.  What [processOCR] hands on from the engine: the text without
    the white space around it, and the confidence rounded to the nearest
    integer (halves upwards), which lies between 0 and 100, the bounds of
    the schema, whenever the engine's confidence does. *)
Theorem processOCR_result
    (recognize : string -> outcome (string * Q)) (imageUrl t : string) (c : Q)
    (Hread : recognize imageUrl = Returned (t, c)) :
  exists r,
    processOCR recognize imageUrl = Returned r
    /\ text r = trim t
    /\ trim (text r) = text r
    /\ (c - (1 # 2) < inject_Z (confidence r) /\ inject_Z (confidence r) <= c + (1 # 2))%Q
    /\ ((0 <= c)%Q -> (c <= 100)%Q -> (0 <= confidence r <= 100)%Z).
Proof.
  unfold processOCR. rewrite Hread. eexists. split; [reflexivity|].
  cbn [text confidence]. split; [reflexivity|]. split; [apply trim_idem|].
  split; [apply round_nearest|].
  intros H0 H100. destruct (round_nearest c) as [Hlo Hhi].
  split.
  - assert (H : (-1 < inject_Z (round c))%Q) by lra.
    change (-1)%Q with (inject_Z (-1)) in H. rewrite <- Zlt_Qlt in H. lia.
  - assert (H : (inject_Z (round c) < 101)%Q) by lra.
    change 101%Q with (inject_Z 101) in H. rewrite <- Zlt_Qlt in H. lia.
Qed.

Lemma processOCR_result_witness :
  exists r,
    processOCR (fun _ => Returned ("  Rx  ", 175 # 2)) "scan.png" = Returned r
    /\ text r = trim "  Rx  "
    /\ trim (text r) = text r
    /\ ((175 # 2) - (1 # 2) < inject_Z (confidence r)
        /\ inject_Z (confidence r) <= (175 # 2) + (1 # 2))%Q
    /\ ((0 <= 175 # 2)%Q -> (175 # 2 <= 100)%Q -> (0 <= confidence r <= 100)%Z).
Proof.
  apply (processOCR_result (fun _ => Returned ("  Rx  ", 175 # 2)) "scan.png").
  reflexivity.
Defined.

(** When the engine fails, [processOCR] fails with its own message,
    whatever the engine's was. *)
Lemma processOCR_failure
    (recognize : string -> outcome (string * Q)) (imageUrl e : string) :
  recognize imageUrl = Thrown e ->
  processOCR recognize imageUrl = Thrown "Failed to process prescription image".
Proof. intros H. unfold processOCR. now rewrite H. Qed.

End OcrResultFacts.

Section CartFacts.
Import AppContext.
Local Open Scope Z_scope.
Context {UserData OrderData : Type}.
Implicit Types (s : State UserData OrderData) (a : Action UserData OrderData).

Lemma find_id_None (k : Z) (c : list CartItem) :
  List.find (fun item => id item =? k) c = None <-> ~ In k (map id c).
Proof.
  induction c as [|x c IH]; cbn [List.find map In]; [tauto|].
  destruct (id x =? k) eqn:E.
  - apply Z.eqb_eq in E. split; [discriminate | tauto].
  - apply Z.eqb_neq in E. rewrite IH. tauto.
Qed.

Lemma map_id_update (k : Z) (f : CartItem -> CartItem) (c : list CartItem) :
  (forall item, id (f item) = id item) ->
  map id (map (fun item => if id item =? k then f item else item) c) = map id c.
Proof.
  intros Hf. induction c as [|x c IH]; [reflexivity|]. cbn [map]. rewrite IH.
  destruct (id x =? k); [now rewrite Hf | reflexivity].
Qed.

Lemma update_absent (k : Z) (f : CartItem -> CartItem) (c : list CartItem) :
  ~ In k (map id c) ->
  map (fun item => if id item =? k then f item else item) c = c.
Proof.
  induction c as [|x c IH]; [reflexivity|]. cbn [map In]. intros Hn.
  rewrite IH by tauto.
  destruct (id x =? k) eqn:E; [|reflexivity].
  apply Z.eqb_eq in E. tauto.
Qed.

Lemma filter_absent (k : Z) (c : list CartItem) :
  ~ In k (map id c) ->
  List.filter (fun item => negb (id item =? k)) c = c.
Proof.
  induction c as [|x c IH]; [reflexivity|]. cbn [map In List.filter]. intros Hn.
  rewrite IH by tauto.
  destruct (id x =? k) eqn:E; [|reflexivity].
  apply Z.eqb_eq in E. tauto.
Qed.

Lemma NoDup_ids_filter (p : CartItem -> bool) (c : list CartItem) :
  List.NoDup (map id c) -> List.NoDup (map id (List.filter p c)).
Proof.
  induction c as [|x c IH]; [exact (fun H => H)|]. cbn [map List.filter].
  intros H. apply List.NoDup_cons_iff in H as [Hx Hc].
  destruct (p x); [|auto]. cbn [map]. apply List.NoDup_cons_iff. split; [|auto].
  intros Hin. apply Hx. apply in_map_iff in Hin as (y & Hy & Hf).
  apply filter_In in Hf as [Hf _]. apply in_map_iff. eauto.
Qed.

(** Every action keeps the ids of the cart distinct. *)
Lemma appReducer_ids s a :
  List.NoDup (map id (cart s)) -> List.NoDup (map id (cart (appReducer s a))).
Proof.
  intros H. destruct a; cbn [appReducer setCart cart map]; try exact H;
    try constructor.
  - destruct (List.find _ (cart s)) eqn:E; cbn [setCart cart].
    + rewrite (map_id_update _ (fun item =>
                 withQuantity (quantity item + quantity payload) item));
        [exact H | reflexivity].
    + apply find_id_None in E. rewrite map_app. cbn [map].
      apply List.NoDup_app; [exact H | repeat constructor; intros [] |].
      intros k Hk [<-|[]]. exact (E Hk).
  - apply NoDup_ids_filter, H.
  - rewrite (map_id_update _ (withQuantity payload_quantity));
      [exact H | reflexivity].
Qed.

(** X24.  Whatever sequence of actions is dispatched from the initial
    state, no two entries of the cart have the same product id: adding a
    product that is already there merges the quantities.  This holds too
    for the cart restored from storage, which is dispatched entry by
    entry. *)
Theorem cart_ids_are_distinct (actions : list (Action UserData OrderData)) :
  List.NoDup (map id (cart (fold_left appReducer actions initialState))).
Proof.
  assert (H : forall s, List.NoDup (map id (cart s)) ->
                        List.NoDup (map id (cart (fold_left appReducer actions s)))).
  { induction actions as [|a rest IH]; intros s Hs; [exact Hs|].
    cbn [fold_left]. apply IH, appReducer_ids, Hs. }
  apply H. constructor.
Qed.

Lemma totalUnits_app (c d : list CartItem) :
  totalUnits (c ++ d) = totalUnits c + totalUnits d.
Proof.
  unfold totalUnits. induction c as [|x c IH]; cbn [app fold_right]; [lia|].
  rewrite IH. lia.
Qed.

Lemma totalUnits_merge (k q : Z) (c : list CartItem) :
  List.NoDup (map id c) -> In k (map id c) ->
  totalUnits (map (fun item => if id item =? k
                               then withQuantity (quantity item + q) item
                               else item) c)
  = totalUnits c + q.
Proof.
  induction c as [|x c IH]; cbn [map In]; [tauto|].
  intros Hnd Hin. apply List.NoDup_cons_iff in Hnd as [Hx Hc].
  change (totalUnits (?y :: ?l)) with (quantity y + totalUnits l).
  destruct (id x =? k) eqn:E.
  - apply Z.eqb_eq in E. subst k.
    rewrite (update_absent _ (fun item => withQuantity (quantity item + q) item))
      by exact Hx.
    cbn [withQuantity quantity]. lia.
  - apply Z.eqb_neq in E. rewrite IH; [lia | exact Hc | tauto].
Qed.

(** X25.  In a cart whose ids are distinct, [addToCart(product, q)] adds
    exactly [q] units to the cart, whether the product was there or not,
    and changes the number of entries by one at most. *)
Theorem addToCart_adds_units
    s (product : CartItem) (q : Z)
    (Hdistinct : List.NoDup (map id (cart s))) :
  totalUnits (cart (addToCart product q s)) = totalUnits (cart s) + q
  /\ length (cart (addToCart product q s))
     = (if existsb (fun item => id item =? id product) (cart s)
        then length (cart s) else S (length (cart s))).
Proof.
  unfold addToCart. cbn [appReducer]. cbn [withQuantity id quantity].
  destruct (List.find _ (cart s)) as [found|] eqn:E; cbn [setCart cart].
  - assert (Hin : In (id product) (map id (cart s))).
    { apply find_some in E as [Hf Hid]. apply Z.eqb_eq in Hid.
      apply in_map_iff. eauto. }
    split; [apply totalUnits_merge; assumption|].
    rewrite length_map.
    replace (existsb _ (cart s)) with true; [reflexivity|].
    symmetry. apply existsb_exists. apply find_some in E. eauto.
  - split.
    + rewrite totalUnits_app. unfold totalUnits at 2. cbn. lia.
    + rewrite length_app. cbn [length].
      replace (existsb _ (cart s)) with false; [lia|].
      symmetry. apply not_true_is_false. intros Hex.
      apply existsb_exists in Hex as (x & Hx & Hid).
      eapply find_none in E; [|exact Hx]. cbn in E. congruence.
Qed.

Lemma filter_positive (p : CartItem -> bool) (c : list CartItem) :
  Forall (fun item => 0 < quantity item) c ->
  Forall (fun item => 0 < quantity item) (List.filter p c).
Proof.
  intros H. apply List.Forall_forall. intros x Hx. apply filter_In in Hx as [Hx _].
  revert x Hx. apply List.Forall_forall. exact H.
Qed.

Lemma update_positive (k : Z) (f : CartItem -> CartItem) (c : list CartItem) :
  (forall item, 0 < quantity (f item)) ->
  Forall (fun item => 0 < quantity item) c ->
  Forall (fun item => 0 < quantity item)
         (map (fun item => if id item =? k then f item else item) c).
Proof.
  intros Hf H. induction H as [|x c Hx _ IH]; cbn [map]; constructor; [|exact IH].
  destruct (id x =? k); [apply Hf | exact Hx].
Qed.

(** X26.  A cart whose quantities are all positive stays so: changing a
    quantity to zero or below removes the entry instead of storing it,
    removing an entry touches no other quantity, and adding a positive
    number of units gives positive quantities. *)
Theorem cart_quantities_stay_positive
    s (Hpositive : Forall (fun item => 0 < quantity item) (cart s)) :
  (forall productId q,
      Forall (fun item => 0 < quantity item) (cart (updateCartQuantity productId q s)))
  /\ (forall productId,
         Forall (fun item => 0 < quantity item) (cart (removeFromCart productId s)))
  /\ (forall product q, 0 < q ->
         Forall (fun item => 0 < quantity item) (cart (addToCart product q s))).
Proof.
  split; [|split].
  - intros productId q. unfold updateCartQuantity, removeFromCart.
    destruct (q <=? 0) eqn:Eq; cbn [appReducer setCart cart].
    + apply filter_positive, Hpositive.
    + apply Z.leb_gt in Eq.
      apply (update_positive _ (withQuantity q)); [intros item; exact Eq | exact Hpositive].
  - intros productId. unfold removeFromCart. cbn [appReducer setCart cart].
    apply filter_positive, Hpositive.
  - intros product q Hq. unfold addToCart. cbn [appReducer]. cbn [withQuantity id quantity].
    destruct (List.find _ (cart s)); cbn [setCart cart].
    + apply List.Forall_forall. intros x Hx.
      apply in_map_iff in Hx as (y & <- & Hy).
      assert (0 < quantity y)
        by (revert y Hy; apply List.Forall_forall; exact Hpositive).
      destruct (id y =? id product); cbn [withQuantity quantity]; lia.
    + apply Forall_app. split; [exact Hpositive|]. constructor; [exact Hq | constructor].
Qed.

(** X27.  Adding a product that is not in the cart and removing it again
    gives back the cart as it was. *)
Theorem add_then_remove_restores_cart
    s (product : CartItem) (q : Z)
    (Habsent : ~ In (id product) (map id (cart s))) :
  cart (removeFromCart (id product) (addToCart product q s)) = cart s.
Proof.
  unfold removeFromCart, addToCart. cbn [appReducer]. cbn [withQuantity id].
  rewrite (proj2 (find_id_None _ _) Habsent). cbn [setCart cart].
  rewrite List.filter_app, filter_absent by exact Habsent.
  cbn [List.filter id]. rewrite Z.eqb_refl. cbn [negb]. apply app_nil_r.
Qed.

End CartFacts.

Section CartWitnesses.
Import AppContext.
Local Open Scope Z_scope.

Lemma addToCart_adds_units_witness :
  totalUnits (cart (addToCart (mkCartItem 7 "Vitamin C" (599 # 100) 1) 3
                      (setCart [mkCartItem 7 "Vitamin C" (599 # 100) 2;
                                mkCartItem 9 "Zinc" (250 # 100) 1]
                               (@initialState unit unit))))
  = totalUnits (cart (setCart [mkCartItem 7 "Vitamin C" (599 # 100) 2;
                               mkCartItem 9 "Zinc" (250 # 100) 1]
                              (@initialState unit unit))) + 3
  /\ length (cart (addToCart (mkCartItem 7 "Vitamin C" (599 # 100) 1) 3
                     (setCart [mkCartItem 7 "Vitamin C" (599 # 100) 2;
                               mkCartItem 9 "Zinc" (250 # 100) 1]
                              (@initialState unit unit))))
     = (if existsb (fun item => id item =? 7)
                   (cart (setCart [mkCartItem 7 "Vitamin C" (599 # 100) 2;
                                   mkCartItem 9 "Zinc" (250 # 100) 1]
                                  (@initialState unit unit)))
        then length (cart (setCart [mkCartItem 7 "Vitamin C" (599 # 100) 2;
                                    mkCartItem 9 "Zinc" (250 # 100) 1]
                                   (@initialState unit unit)))
        else S (length (cart (setCart [mkCartItem 7 "Vitamin C" (599 # 100) 2;
                                       mkCartItem 9 "Zinc" (250 # 100) 1]
                                      (@initialState unit unit))))).
Proof.
  apply (addToCart_adds_units
           (setCart [mkCartItem 7 "Vitamin C" (599 # 100) 2;
                     mkCartItem 9 "Zinc" (250 # 100) 1] (@initialState unit unit))
           (mkCartItem 7 "Vitamin C" (599 # 100) 1) 3).
  cbn. repeat constructor; cbn; intros H; repeat destruct H as [H|H]; try discriminate H;
    exact H.
Defined.

Lemma cart_quantities_stay_positive_witness :
  (forall productId q,
      Forall (fun item => 0 < quantity item)
        (cart (updateCartQuantity productId q
                 (setCart [mkCartItem 7 "Vitamin C" (599 # 100) 2;
                           mkCartItem 9 "Zinc" (250 # 100) 1]
                          (@initialState unit unit)))))
  /\ (forall productId,
         Forall (fun item => 0 < quantity item)
           (cart (removeFromCart productId
                    (setCart [mkCartItem 7 "Vitamin C" (599 # 100) 2;
                              mkCartItem 9 "Zinc" (250 # 100) 1]
                             (@initialState unit unit)))))
  /\ (forall product q, 0 < q ->
         Forall (fun item => 0 < quantity item)
           (cart (addToCart product q
                    (setCart [mkCartItem 7 "Vitamin C" (599 # 100) 2;
                              mkCartItem 9 "Zinc" (250 # 100) 1]
                             (@initialState unit unit))))).
Proof.
  apply (cart_quantities_stay_positive
           (setCart [mkCartItem 7 "Vitamin C" (599 # 100) 2;
                     mkCartItem 9 "Zinc" (250 # 100) 1] (@initialState unit unit))).
  cbn. repeat constructor.
Defined.

Lemma add_then_remove_restores_cart_witness :
  cart (removeFromCart 11
          (addToCart (mkCartItem 11 "Syrup" (425 # 100) 1) 2
             (setCart [mkCartItem 7 "Vitamin C" (599 # 100) 2;
                       mkCartItem 9 "Zinc" (250 # 100) 1]
                      (@initialState unit unit))))
  = cart (setCart [mkCartItem 7 "Vitamin C" (599 # 100) 2;
                   mkCartItem 9 "Zinc" (250 # 100) 1]
                  (@initialState unit unit)).
Proof.
  apply (add_then_remove_restores_cart
           (setCart [mkCartItem 7 "Vitamin C" (599 # 100) 2;
                     mkCartItem 9 "Zinc" (250 # 100) 1] (@initialState unit unit))
           (mkCartItem 11 "Syrup" (425 # 100) 1) 2).
  cbn. intros [H|[H|[]]]; discriminate H.
Defined.

End CartWitnesses.

Section ReservationFacts.
Import JS PrescriptionModel Controllers OrderLifecycle.
Local Open Scope Z_scope.

(** The item loop reads the name, the price, the stock quantity and the
    two flags of a product, never the reserved stock. *)
Lemma itemLoop_ignores_reserved supplied (extra : string -> Z) (its : list Item.t) :
  forall subtotal orderItems (c c2 : gmap string Product.t),
    (forall id, c2 !! id = Product.reserve (extra id) <$> c !! id) ->
    snd (itemLoop supplied its subtotal orderItems c2)
    = snd (itemLoop supplied its subtotal orderItems c)
    /\ (forall id, fst (itemLoop supplied its subtotal orderItems c2) !! id
                   = Product.reserve (extra id)
                     <$> fst (itemLoop supplied its subtotal orderItems c) !! id).
Proof.
  induction its as [|it rest IH]; intros subtotal orderItems c c2 Hc;
    cbn [itemLoop]; [split; [reflexivity | exact Hc]|].
  rewrite (Hc (Item.product it)).
  destruct (c !! Item.product it) as [found|] eqn:Ef; cbn [fmap option_fmap option_map];
    [|split; [reflexivity | exact Hc]].
  cbn [Product.reserve Product.isActive Product.quantity Product.prescriptionRequired
       Product.name Product.price].
  destruct (negb (Product.isActive found)); [split; [reflexivity | exact Hc]|].
  destruct (Product.quantity found <? Item.quantity it);
    [split; [reflexivity | exact Hc]|].
  destruct (Product.prescriptionRequired found && _);
    [split; [reflexivity | exact Hc]|].
  apply IH. intros id.
  destruct (decide (Item.product it = id)) as [<-|Hne].
  - rewrite !lookup_insert_eq. cbn. f_equal.
    destruct found. unfold Product.reserve. cbn. f_equal. lia.
  - rewrite !lookup_insert_ne by exact Hne. apply Hc.
Qed.

(** X29.  Order creation never looks at the stock other orders have
    reserved: for a request whose quantities are not negative, with any
    amount of reserved stock added to any product of a catalogue without
    negative reserved stock, the request gets the same answer, the same
    order or the same refusal.  Only the stock quantity limits an order,
    so reservations can exceed it. *)
Theorem reserved_stock_is_not_checked
    (user : User.t) (body : OrderBody) (w : World) (extra : string -> Z)
    (Hreserved : reservedNonNegative (products w))
    (Hextra : forall id, 0 <= extra id)
    (Hquantities : forall its item, items body = Some its -> In item its ->
                                    0 <= Item.quantity item) :
  fst (createOrder user body
         (setProducts
            (map_imap (fun id p => Some (Product.reserve (extra id) p)) (products w)) w))
  = fst (createOrder user body w).
Proof.
  unfold createOrder.
  destruct (items body) as [[|it rest]|]; try reflexivity.
  destruct (shippingAddress body) as [shipTo|]; [|reflexivity].
  cbn [products setProducts].
  destruct (itemLoop_ignores_reserved (prescriptions_supplied body) extra (it :: rest)
              0%Q [] (products w)
              (map_imap (fun id p => Some (Product.reserve (extra id) p)) (products w)))
    as [Hres _].
  { intros id. rewrite map_lookup_imap. now destruct (products w !! id). }
  destruct (itemLoop _ (it :: rest) 0%Q [] (map_imap _ (products w))) as [c2 r2].
  destruct (itemLoop _ (it :: rest) 0%Q [] (products w)) as [c1 r1].
  cbn [snd] in Hres. subst r2.
  destruct r1 as [err|[total lines]]; reflexivity.
Qed.

Lemma reserved_stock_is_not_checked_witness :
  fst (createOrder Sample.patientUser (Sample.order (Some [Sample.approved]))
         (setProducts
            (map_imap (fun id p =>
                         Some (Product.reserve
                                 (if String.eqb id "p-amox" then 1000 else 0) p))
                      (products Sample.world)) Sample.world))
  = fst (createOrder Sample.patientUser (Sample.order (Some [Sample.approved]))
           Sample.world).
Proof.
  apply (reserved_stock_is_not_checked Sample.patientUser
           (Sample.order (Some [Sample.approved])) Sample.world
           (fun id => if String.eqb id "p-amox" then 1000 else 0)).
  - exact sample_catalogue_reserved.
  - intros id. destruct (String.eqb id "p-amox"); lia.
  - intros its item [= <-] Hin. cbn in Hin.
    destruct Hin as [<-|[<-|[]]]; cbn; lia.
Defined.

End ReservationFacts.
